(** * V4L2EncodeInterface: parameter negotiation of the V4L2 encoder component

    A shallow embedding of [components/V4L2EncodeInterface.cpp]: the H264 and
    VP9 profile/level setters, the intra-refresh setter, [Initialize] and
    [getKeyFramePeriod], followed by the properties of the specification that
    are settled against them.

    Conventions.  Unsigned C++ integers are [Z] with the wrap-around written
    out; [float] and [double] are IEEE-754 binary32 and binary64 values of the
    standard library's [spec_float], with round-to-nearest-even arithmetic. *)

From Stdlib Require Import ZArith List Bool Lia String.
From Stdlib Require Import Sorted RelationClasses.
From Stdlib Require Import Floats.SpecFloat.
Import ListNotations.
Open Scope Z_scope.

(** ** Machine integers *)

Definition UINT32_MAX : Z := 4294967295.
Definition INT64_MAX : Z := 9223372036854775807.

Definition u32 (z : Z) : Z := z mod 2 ^ 32.
Definition u64 (z : Z) : Z := z mod 2 ^ 64.

(** ** IEEE-754 arithmetic: C++ [float] and [double] *)

(** The exact integer part (truncation toward zero) of a finite value; [None]
    for NaN and the infinities, whose conversion to an integer type is
    undefined in C++. *)
Definition SFtrunc (x : spec_float) : option Z :=
  match x with
  | S754_zero _ => Some 0
  | S754_finite s m e =>
      let a := if 0 <=? e then Z.pos m * 2 ^ e else Z.pos m / 2 ^ (- e) in
      Some (if s then - a else a)
  | S754_infinity _ | S754_nan => None
  end.

Definition SFis_nan (x : spec_float) : bool :=
  match x with S754_nan => true | _ => false end.

Module F32.
Definition prec : Z := 24.
Definition emax : Z := 128.
Definition float : Type := spec_float.
(** [static_cast<float>(z)] of an integer. *)
Definition of_Z (z : Z) : float := binary_normalize prec emax z 0 false.
Definition mul : float -> float -> float := SFmul prec emax.
Definition leb : float -> float -> bool := SFleb.
Definition ltb : float -> float -> bool := SFltb.
End F32.

Module F64.
Definition prec : Z := 53.
Definition emax : Z := 1024.
Definition double : Type := spec_float.
Definition of_Z (z : Z) : double := binary_normalize prec emax z 0 false.
(** Widening a [float] to [double] is exact; the value is put back in
    canonical binary64 form. *)
Definition of_float (x : F32.float) : double :=
  match x with
  | S754_finite s m e => binary_normalize prec emax (if s then Z.neg m else Z.pos m) e s
  | _ => x
  end.
Definition mul : double -> double -> double := SFmul prec emax.
Definition div : double -> double -> double := SFdiv prec emax.
Definition ltb : double -> double -> bool := SFltb.
End F64.

(** ** The Codec2 configuration enumerations *)

Module C2Config.
Definition profile_t : Type := Z.
Definition level_t : Type := Z.

(** Modelled from the spec: the enumerators of [C2Config::profile_t] and
    [C2Config::level_t] are declared in the Codec2 header [C2Config.h], which
    is not among the sources.  The specification describes profiles and
    levels as ordered enumerated values with codec-specific ranges; the
    values below follow the declaration order of the enumerators, counted
    from the per-codec base. *)
Definition PL_AVC_BASE : Z := 20480. (* 0x5000 *)
Definition PL_VP9_BASE : Z := 28672. (* 0x7000 *)
Definition PL_VP8_BASE : Z := 40960. (* 0xA000 *)

Definition PROFILE_UNUSED : profile_t := 0.
Definition PROFILE_AVC_BASELINE : profile_t := PL_AVC_BASE.
Definition PROFILE_AVC_CONSTRAINED_BASELINE : profile_t := PL_AVC_BASE + 1.
Definition PROFILE_AVC_MAIN : profile_t := PL_AVC_BASE + 2.
Definition PROFILE_AVC_EXTENDED : profile_t := PL_AVC_BASE + 3.
Definition PROFILE_AVC_HIGH : profile_t := PL_AVC_BASE + 4.
Definition PROFILE_AVC_HIGH_10 : profile_t := PL_AVC_BASE + 7.
Definition PROFILE_AVC_HIGH_422 : profile_t := PL_AVC_BASE + 9.
Definition PROFILE_AVC_ENHANCED_MULTIVIEW_DEPTH_HIGH : profile_t := PL_AVC_BASE + 769.
Definition PROFILE_VP8_0 : profile_t := PL_VP8_BASE.
Definition PROFILE_VP8_3 : profile_t := PL_VP8_BASE + 3.
Definition PROFILE_VP9_0 : profile_t := PL_VP9_BASE.
Definition PROFILE_VP9_3 : profile_t := PL_VP9_BASE + 3.

Definition LEVEL_UNUSED : level_t := 0.
Definition LEVEL_AVC_1 : level_t := PL_AVC_BASE.
Definition LEVEL_AVC_1B : level_t := PL_AVC_BASE + 1.
Definition LEVEL_AVC_1_1 : level_t := PL_AVC_BASE + 2.
Definition LEVEL_AVC_1_2 : level_t := PL_AVC_BASE + 3.
Definition LEVEL_AVC_1_3 : level_t := PL_AVC_BASE + 4.
Definition LEVEL_AVC_2 : level_t := PL_AVC_BASE + 5.
Definition LEVEL_AVC_2_1 : level_t := PL_AVC_BASE + 6.
Definition LEVEL_AVC_2_2 : level_t := PL_AVC_BASE + 7.
Definition LEVEL_AVC_3 : level_t := PL_AVC_BASE + 8.
Definition LEVEL_AVC_3_1 : level_t := PL_AVC_BASE + 9.
Definition LEVEL_AVC_3_2 : level_t := PL_AVC_BASE + 10.
Definition LEVEL_AVC_4 : level_t := PL_AVC_BASE + 11.
Definition LEVEL_AVC_4_1 : level_t := PL_AVC_BASE + 12.
Definition LEVEL_AVC_4_2 : level_t := PL_AVC_BASE + 13.
Definition LEVEL_AVC_5 : level_t := PL_AVC_BASE + 14.
Definition LEVEL_AVC_5_1 : level_t := PL_AVC_BASE + 15.
Definition LEVEL_AVC_5_2 : level_t := PL_AVC_BASE + 16.
Definition LEVEL_VP9_1 : level_t := PL_VP9_BASE.
Definition LEVEL_VP9_1_1 : level_t := PL_VP9_BASE + 1.
Definition LEVEL_VP9_2 : level_t := PL_VP9_BASE + 2.
Definition LEVEL_VP9_2_1 : level_t := PL_VP9_BASE + 3.
Definition LEVEL_VP9_3 : level_t := PL_VP9_BASE + 4.
Definition LEVEL_VP9_3_1 : level_t := PL_VP9_BASE + 5.
Definition LEVEL_VP9_4 : level_t := PL_VP9_BASE + 6.
Definition LEVEL_VP9_4_1 : level_t := PL_VP9_BASE + 7.
Definition LEVEL_VP9_5 : level_t := PL_VP9_BASE + 8.
Definition LEVEL_VP9_5_1 : level_t := PL_VP9_BASE + 9.
Definition LEVEL_VP9_5_2 : level_t := PL_VP9_BASE + 10.
Definition LEVEL_VP9_6 : level_t := PL_VP9_BASE + 11.
Definition LEVEL_VP9_6_1 : level_t := PL_VP9_BASE + 12.
Definition LEVEL_VP9_6_2 : level_t := PL_VP9_BASE + 13.

Definition intra_refresh_mode_t : Type := Z.
Definition INTRA_REFRESH_DISABLED : intra_refresh_mode_t := 0.
Definition INTRA_REFRESH_ARBITRARY : intra_refresh_mode_t := 1.
End C2Config.
Import C2Config.

(** ** Parameter values and setter results *)

(** [C2StreamProfileLevelInfo::output]. *)
Record ProfileLevel : Type := mkProfileLevel {
  profile : profile_t;
  level : level_t
}.

(** [C2StreamPictureSizeInfo::input]; both fields are [uint32_t]. *)
Record PictureSize : Type := mkPictureSize {
  width : Z;
  height : Z
}.

(** The field a [C2SettingResultBuilder::BadValue] points at. *)
Inductive Field : Type := F_profile | F_level.

(** [C2R]: the setter's result. *)
Inductive C2R : Type :=
| Ok
| BadValue (f : Field).

(** The values a field was declared with ([withFields ... oneOf]); this is
    what [info.F(...).supportsAtAll(v)] consults. *)
Record FieldSupport : Type := mkFieldSupport {
  profiles : list profile_t;
  levels : list level_t
}.

Definition supportsAtAll (values : list Z) (v : Z) : bool :=
  existsb (Z.eqb v) values.

(** ** Table A-1: the H264 level limits *)

Record LevelLimits : Type := mkLimits {
  ll_level : level_t;
  maxMBPS : F32.float;  (* max macroblock processing rate in macroblocks per second *)
  maxFS : Z;            (* max frame size in macroblocks *)
  maxBR : Z             (* max video bitrate in bits per second *)
}.

Definition limits (l : level_t) (mbps fs br : Z) : LevelLimits :=
  mkLimits l (F32.of_Z mbps) fs br.

Definition kLimits : list LevelLimits :=
  [ limits LEVEL_AVC_1 1485 99 64000;
    limits LEVEL_AVC_1B 1485 99 128000;
    limits LEVEL_AVC_1_1 3000 396 192000;
    limits LEVEL_AVC_1_2 6000 396 384000;
    limits LEVEL_AVC_1_3 11880 396 768000;
    limits LEVEL_AVC_2 11880 396 2000000;
    limits LEVEL_AVC_2_1 19800 792 4000000;
    limits LEVEL_AVC_2_2 20250 1620 4000000;
    limits LEVEL_AVC_3 40500 1620 10000000;
    limits LEVEL_AVC_3_1 108000 3600 14000000;
    limits LEVEL_AVC_3_2 216000 5120 20000000;
    limits LEVEL_AVC_4 245760 8192 20000000;
    limits LEVEL_AVC_4_1 245760 8192 50000000;
    limits LEVEL_AVC_4_2 522240 8704 50000000;
    limits LEVEL_AVC_5 589824 22080 135000000;
    limits LEVEL_AVC_5_1 983040 36864 240000000;
    limits LEVEL_AVC_5_2 2073600 36864 240000000 ].

(** ** H264ProfileLevelSetter *)

(** [static_cast<uint64_t>((width + 15) / 16) * ((height + 15) / 16)]: the
    additions are in [uint32_t], the product in [uint64_t]. *)
Definition targetFS (videoSize : PictureSize) : Z :=
  u64 (u32 (width videoSize + 15) / 16 * (u32 (height videoSize + 15) / 16)).

Definition targetMBPS (videoSize : PictureSize) (frameRate : F32.float) : F32.float :=
  F32.mul (F32.of_Z (targetFS videoSize)) frameRate.

(** [maxBR * 5.0 / 4.0], computed in [double] and stored back into a
    [uint32_t].  The quotient of a [uint32_t] is always finite; a quotient
    above UINT32_MAX, whose conversion C++ leaves undefined, does not arise
    for the rows of [kLimits] (see [profileMaxBR_exact]). *)
Definition scaleHigh (br : Z) : Z :=
  match SFtrunc (F64.div (F64.mul (F64.of_Z br) (F64.of_Z 5)) (F64.of_Z 4)) with
  | Some z => u32 z
  | None => 0
  end.

(** Table A-2: the bitrate limit of a row for the given profile. *)
Definition profileMaxBR (p : profile_t) (br : Z) : Z :=
  if PROFILE_AVC_HIGH_422 <=? p then u32 (br * 4)
  else if PROFILE_AVC_HIGH_10 <=? p then u32 (br * 3)
  else if PROFILE_AVC_HIGH <=? p then scaleHigh br
  else br.

(** The test of the loop body: does the row cover the configuration? *)
Definition meets (p : profile_t) (fs : Z) (mbps : F32.float) (bitrate : Z)
    (limit : LevelLimits) : bool :=
  (fs <=? maxFS limit) && F32.leb mbps (maxMBPS limit)
  && (bitrate <=? profileMaxBR p (maxBR limit)).

(** The variables the loop over [kLimits] reads and writes. *)
Record LoopState : Type := mkLoop {
  ls_info : ProfileLevel;
  ls_lowest : level_t;       (* the static [lowestConfigLevel] *)
  ls_found : bool;
  ls_needsUpdate : bool
}.

(** The [for (const LevelLimits& limit : kLimits)] loop; returning without a
    recursive call is the [break]. *)
Fixpoint scanLimits (sup : FieldSupport) (fs : Z) (mbps : F32.float) (bitrate : Z)
    (rows : list LevelLimits) (st : LoopState) : LoopState :=
  match rows with
  | [] => st
  | limit :: rest =>
      if negb (supportsAtAll (levels sup) (ll_level limit)) then
        scanLimits sup fs mbps bitrate rest st
      else if meets (profile (ls_info st)) fs mbps bitrate limit then
        if ls_needsUpdate st then
          mkLoop (mkProfileLevel (profile (ls_info st)) (ll_level limit))
                 (level (ls_info st)) true true
        else
          mkLoop (ls_info st) (ls_lowest st) true (ls_needsUpdate st)
      else
        scanLimits sup fs mbps bitrate rest
          (if level (ls_info st) <=? ll_level limit
           then mkLoop (ls_info st) (ls_lowest st) (ls_found st) true
           else st)
  end.

(** What a setter call leaves behind: its result, the parameter it was
    handed (mutated through [info.set()]) and the static
    [lowestConfigLevel]. *)
Record SetterOut : Type := mkOut {
  result : C2R;
  info_out : ProfileLevel;
  lowest_out : level_t
}.

Definition H264ProfileLevelSetter (sup : FieldSupport) (lowestConfigLevel : level_t)
    (info : ProfileLevel) (videoSize : PictureSize) (frameRate : F32.float)
    (bitrate : Z) : SetterOut :=
  let minProfile := PROFILE_AVC_BASELINE in
  let adopted :=
    if negb (supportsAtAll (profiles sup) (profile info)) || (profile info <? minProfile)
    then
      if supportsAtAll (profiles sup) minProfile
      then Some (mkProfileLevel minProfile (level info))
      else None
    else Some info in
  match adopted with
  | None => mkOut (BadValue F_profile) info lowestConfigLevel
  | Some info1 =>
      let fs := targetFS videoSize in
      let mbps := targetMBPS videoSize frameRate in
      let info2 :=
        if negb (lowestConfigLevel =? LEVEL_UNUSED) && (lowestConfigLevel <? level info1)
        then mkProfileLevel (profile info1) lowestConfigLevel
        else info1 in
      let needsUpdate := negb (supportsAtAll (levels sup) (level info2)) in
      let st := scanLimits sup fs mbps bitrate kLimits
                  (mkLoop info2 lowestConfigLevel false needsUpdate) in
      if ls_found st
      then mkOut Ok (ls_info st) (ls_lowest st)
      else mkOut (BadValue F_level) (ls_info st) (ls_lowest st)
  end.

(** The level list [Initialize] declares for the H264 [mProfileLevel]
    parameter. *)
Definition h264Levels : list level_t :=
  [ LEVEL_AVC_1; LEVEL_AVC_1B; LEVEL_AVC_1_1; LEVEL_AVC_1_2;
    LEVEL_AVC_1_3; LEVEL_AVC_2; LEVEL_AVC_2_1; LEVEL_AVC_2_2;
    LEVEL_AVC_3; LEVEL_AVC_3_1; LEVEL_AVC_3_2; LEVEL_AVC_4;
    LEVEL_AVC_4_1; LEVEL_AVC_4_2; LEVEL_AVC_5; LEVEL_AVC_5_1 ].

(** ** VP9ProfileLevelSetter *)

Definition VP9ProfileLevelSetter (sup : FieldSupport) (info : ProfileLevel)
    : C2R * ProfileLevel :=
  let defaultMinProfile := PROFILE_VP9_0 in
  if negb (supportsAtAll (profiles sup) (profile info)) || (profile info <? defaultMinProfile)
  then
    if supportsAtAll (profiles sup) defaultMinProfile
    then (Ok, mkProfileLevel defaultMinProfile (level info))
    else (BadValue F_profile, info)
  else (Ok, info).

(** ** IntraRefreshPeriodSetter *)

(** [C2StreamIntraRefreshTuning::output]: a mode and a [float] period. *)
Record IntraRefresh : Type := mkIntraRefresh {
  ir_mode : intra_refresh_mode_t;
  ir_period : F32.float
}.

Definition IntraRefreshPeriodSetter (period : IntraRefresh) : C2R * IntraRefresh :=
  if F32.ltb (ir_period period) (F32.of_Z 1)
  then (Ok, mkIntraRefresh INTRA_REFRESH_DISABLED (F32.of_Z 0))
  else (Ok, mkIntraRefresh INTRA_REFRESH_ARBITRARY (ir_period period)).

(** ** getKeyFramePeriod *)

(** [std::round] yields an integer-valued [double], and [std::min],
    [std::max] and the final conversion operate on it without rounding; such
    values are carried by the integer they denote. *)
Inductive integral : Type :=
| INaN
| IInf (negative : bool)
| IInt (z : Z).

(** [std::round]: to the nearest integer, halfway cases away from zero. *)
Definition std_round (x : F64.double) : integral :=
  match x with
  | S754_nan => INaN
  | S754_infinity s => IInf s
  | S754_zero _ => IInt 0
  | S754_finite s m e =>
      let a := if 0 <=? e then Z.pos m * 2 ^ e
               else (2 * Z.pos m + 2 ^ (- e)) / (2 * 2 ^ (- e)) in
      IInt (if s then - a else a)
  end.

(** The operator [<] on integer-valued doubles; false when either is NaN. *)
Definition integral_lt (a b : integral) : bool :=
  match a, b with
  | INaN, _ | _, INaN => false
  | IInf sa, IInf sb => sa && negb sb
  | IInf sa, IInt _ => sa
  | IInt _, IInf sb => negb sb
  | IInt x, IInt y => x <? y
  end.

(** [std::min(a, b)] is [(b < a) ? b : a]; [std::max(a, b)] is
    [(a < b) ? b : a]. *)
Definition std_min (a b : integral) : integral := if integral_lt b a then b else a.
Definition std_max (a b : integral) : integral := if integral_lt a b then b else a.

(** [static_cast<uint32_t>]: defined for values whose integer part fits. *)
Definition to_uint32 (a : integral) : option Z :=
  match a with
  | IInt z => if (0 <=? z) && (z <=? UINT32_MAX) then Some z else None
  | _ => None
  end.

(** The [double] named [period] in the source. *)
Definition keyFramePeriodFrames (periodUs : Z) (frameRate : F32.float) : F64.double :=
  F64.mul (F64.div (F64.of_Z periodUs) (F64.of_Z 1000000)) (F64.of_float frameRate).

Definition getKeyFramePeriod (mKeyFramePeriodUs : Z) (mFrameRate : F32.float)
    : option Z :=
  if (mKeyFramePeriodUs <? 0) || (mKeyFramePeriodUs =? INT64_MAX) then Some 0
  else
    let period := keyFramePeriodFrames mKeyFramePeriodUs mFrameRate in
    to_uint32 (std_max (std_min (std_round period) (IInt UINT32_MAX)) (IInt 1)).

(** ** Initialize *)

Inductive VideoCodec : Type := H264 | VP8 | VP9.

Module V4L2ComponentName.
(** Modelled from the spec: the component name constants are defined in
    [V4L2ComponentCommon], which is not among the sources; the specification
    only speaks of codec name strings.  The three names are the encoder
    component names of the V4L2 Codec2 service. *)
Definition kH264Encoder : string := "c2.v4l2.avc.encoder".
Definition kVP8Encoder : string := "c2.v4l2.vp8.encoder".
Definition kVP9Encoder : string := "c2.v4l2.vp9.encoder".
End V4L2ComponentName.

Definition getCodecFromComponentName (name : string) : option VideoCodec :=
  if String.eqb name V4L2ComponentName.kH264Encoder then Some H264
  else if String.eqb name V4L2ComponentName.kVP8Encoder then Some VP8
  else if String.eqb name V4L2ComponentName.kVP9Encoder then Some VP9
  else None.

(** Check whether the specified profile is a valid profile for the specified
    codec. *)
Definition IsValidProfileForCodec (codec : VideoCodec) (p : profile_t) : bool :=
  match codec with
  | H264 => (PROFILE_AVC_BASELINE <=? p) && (p <=? PROFILE_AVC_ENHANCED_MULTIVIEW_DEPTH_HIGH)
  | VP8 => (PROFILE_VP8_0 <=? p) && (p <=? PROFILE_VP8_3)
  | VP9 => (PROFILE_VP9_0 <=? p) && (p <=? PROFILE_VP9_3)
  end.

(** The status codes [Initialize] stores in [mInitStatus]. *)
Inductive c2_status_t : Type := C2_OK | C2_BAD_VALUE | C2_CORRUPTED.

(** An entry of [V4L2Device::getSupportedEncodeProfiles()]. *)
Record SupportedEncodeProfile : Type := mkSupportedProfile {
  sp_profile : profile_t;
  sp_max_width : Z;
  sp_max_height : Z
}.

(** The parameters [Initialize] registers with [addParameter]. *)
Inductive ParamKey : Type :=
| COMPONENT_KIND | PICTURE_SIZE | FRAME_RATE | BITRATE | BITRATE_MODE
| PROFILE_LEVEL | INPUT_STREAM_BUFFER_TYPE | INPUT_STREAM_USAGE
| OUTPUT_STREAM_BUFFER_TYPE | INPUT_MEDIA_TYPE | OUTPUT_MEDIA_TYPE
| INTRA_REFRESH | REQUEST_SYNC_FRAME | SYNC_FRAME_INTERVAL
| INPUT_ALLOCATORS | OUTPUT_ALLOCATORS | OUTPUT_BLOCK_POOLS.

(** How [mProfileLevel] was defined: with one of the two setters, or as a
    constant value (VP8). *)
Inductive ProfileLevelKind : Type := WithH264Setter | WithVP9Setter | ConstValue.

(** The members of a [V4L2EncodeInterface] this development follows.  A
    parameter member is [None] until [addParameter] has defined it. *)
Record V4L2EncodeInterface : Type := mkInterface {
  mInitStatus : c2_status_t;
  mParams : list ParamKey;
  mInputVisibleSize : option PictureSize;
  mFrameRate : option F32.float;
  mBitrate : option Z;
  mProfileLevel : option ProfileLevel;
  mProfileLevelKind : ProfileLevelKind;
  mProfileLevelFields : FieldSupport;
  mIntraRefreshPeriod : option IntraRefresh;
  mKeyFramePeriodUs : option Z
}.

Definition kDefaultFrameRate : F32.float := F32.of_Z 30.
Definition kDefaultBitrate : Z := 64000.
Definition kMaxBitrate : Z := 50000000.

(** The loop that compiles the list of supported profiles. *)
Definition compileProfiles (codec : VideoCodec)
    (supported_profiles : list SupportedEncodeProfile) : list profile_t :=
  map sp_profile
      (filter (fun sp => IsValidProfileForCodec codec (sp_profile sp)) supported_profiles).

(** [*std::min_element(profiles.begin(), profiles.end())]; the list is not
    empty where it is used. *)
Definition min_element (l : list Z) : Z :=
  match l with
  | [] => 0
  | x :: rest => fold_left Z.min rest x
  end.

Definition vp9Levels : list level_t :=
  [ LEVEL_VP9_1; LEVEL_VP9_1_1; LEVEL_VP9_2; LEVEL_VP9_2_1;
    LEVEL_VP9_3; LEVEL_VP9_3_1; LEVEL_VP9_4; LEVEL_VP9_4_1;
    LEVEL_VP9_5; LEVEL_VP9_5_1; LEVEL_VP9_5_2; LEVEL_VP9_6;
    LEVEL_VP9_6_1; LEVEL_VP9_6_2 ].

(** An interface on which no parameter has been added yet. *)
Definition bare (status : c2_status_t) : V4L2EncodeInterface :=
  mkInterface status [] None None None None ConstValue (mkFieldSupport [] [])
              None None.

(** [Initialize(name)].  [device] is the outcome of [V4L2Device::create()]:
    [None] for a null device, otherwise the profiles the device reports.
    Every [addParameter] call is recorded by its key; the values are kept for
    the parameters the setters and [getKeyFramePeriod] read.  The last branch
    of the inner match is the source's final [else], taken when the name maps
    to no codec. *)
Definition Initialize (device : option (list SupportedEncodeProfile)) (name : string)
    : V4L2EncodeInterface :=
  match device with
  | None => bare C2_CORRUPTED
  | Some supported_profiles =>
      match getCodecFromComponentName name with
      | None => bare C2_BAD_VALUE
      | Some codec =>
          let profiles := compileProfiles codec supported_profiles in
          match profiles with
          | [] => bare C2_BAD_VALUE
          | _ :: _ =>
              let first := [COMPONENT_KIND; PICTURE_SIZE; FRAME_RATE; BITRATE; BITRATE_MODE] in
              let rest := [INPUT_STREAM_BUFFER_TYPE; INPUT_STREAM_USAGE;
                           OUTPUT_STREAM_BUFFER_TYPE; INPUT_MEDIA_TYPE; OUTPUT_MEDIA_TYPE;
                           INTRA_REFRESH; REQUEST_SYNC_FRAME; SYNC_FRAME_INTERVAL;
                           INPUT_ALLOCATORS; OUTPUT_ALLOCATORS; OUTPUT_BLOCK_POOLS] in
              let size := Some (mkPictureSize 320 240) in
              let rate := Some kDefaultFrameRate in
              let bitrate := Some kDefaultBitrate in
              let refresh := Some (mkIntraRefresh INTRA_REFRESH_DISABLED (F32.of_Z 0)) in
              let sync := Some 1000000 in
              match getCodecFromComponentName name with
              | Some H264 =>
                  let minProfile := min_element profiles in
                  mkInterface C2_OK (first ++ [PROFILE_LEVEL] ++ rest) size rate bitrate
                    (Some (mkProfileLevel minProfile LEVEL_AVC_4_1)) WithH264Setter
                    (mkFieldSupport profiles h264Levels) refresh sync
              | Some VP8 =>
                  mkInterface C2_OK (first ++ [PROFILE_LEVEL] ++ rest) size rate bitrate
                    (Some (mkProfileLevel PROFILE_VP8_0 LEVEL_UNUSED)) ConstValue
                    (mkFieldSupport [] []) refresh sync
              | Some VP9 =>
                  let minProfile := min_element profiles in
                  mkInterface C2_OK (first ++ [PROFILE_LEVEL] ++ rest) size rate bitrate
                    (Some (mkProfileLevel minProfile LEVEL_VP9_1)) WithVP9Setter
                    (mkFieldSupport profiles vp9Levels) refresh sync
              | None =>
                  mkInterface C2_BAD_VALUE first size rate bitrate
                    None ConstValue (mkFieldSupport [] []) None None
              end
          end
      end
  end.

(** ** The process: interface instances and the setter's static variable *)

(** [lowestConfigLevel] is a [static] local of [H264ProfileLevelSetter]: one
    variable per process, initialised to [LEVEL_UNUSED] when the process
    starts.  The interface objects live next to it. *)
Record Process : Type := mkProcess {
  lowestConfigLevel : level_t;
  instances : list V4L2EncodeInterface
}.

Definition processStart : Process := mkProcess LEVEL_UNUSED [].

(** [new V4L2EncodeInterface(name, helper)]: the constructor runs
    [Initialize]; the new object is the last of [instances]. *)
Definition construct (device : option (list SupportedEncodeProfile)) (name : string)
    (p : Process) : Process :=
  mkProcess (lowestConfigLevel p) (instances p ++ [Initialize device name]).

(** Destroying the [i]-th interface object. *)
Definition destroy (i : nat) (p : Process) : Process :=
  mkProcess (lowestConfigLevel p) (firstn i (instances p) ++ skipn (S i) (instances p)).

Definition setProfileLevel (v : ProfileLevel) (x : V4L2EncodeInterface)
    : V4L2EncodeInterface :=
  mkInterface (mInitStatus x) (mParams x) (mInputVisibleSize x) (mFrameRate x)
    (mBitrate x) (Some v) (mProfileLevelKind x) (mProfileLevelFields x)
    (mIntraRefreshPeriod x) (mKeyFramePeriodUs x).

Fixpoint replace {A : Type} (i : nat) (x : A) (l : list A) : list A :=
  match l, i with
  | [], _ => []
  | _ :: rest, O => x :: rest
  | y :: rest, S j => y :: replace j x rest
  end.

(** Modelled from the spec: the Codec2 helper that runs a parameter's setter
    on a configuration request is not among the sources.  Following the
    specification, a request for the profile/level field of the [i]-th
    interface hands the proposed value to the setter the parameter was
    defined with, together with the already-resolved size, frame rate and
    bitrate; the resulting value is stored when the setter accepts, and the
    field keeps its last value when it rejects.  The result is [None] when
    there is no such interface or its parameters were never defined. *)
Definition configProfileLevel (i : nat) (proposed : ProfileLevel) (p : Process)
    : option (C2R * Process) :=
  match nth_error (instances p) i with
  | None => None
  | Some x =>
      match mProfileLevelKind x, mInputVisibleSize x, mFrameRate x, mBitrate x with
      | WithH264Setter, Some size, Some rate, Some bitrate =>
          let out := H264ProfileLevelSetter (mProfileLevelFields x) (lowestConfigLevel p)
                       proposed size rate bitrate in
          Some (result out,
                mkProcess (lowest_out out)
                  (match result out with
                   | Ok => replace i (setProfileLevel (info_out out) x) (instances p)
                   | BadValue _ => instances p
                   end))
      | WithVP9Setter, Some _, Some _, Some _ =>
          let '(r, v) := VP9ProfileLevelSetter (mProfileLevelFields x) proposed in
          Some (r,
                mkProcess (lowestConfigLevel p)
                  (match r with
                   | Ok => replace i (setProfileLevel v x) (instances p)
                   | BadValue _ => instances p
                   end))
      | _, _, _, _ => None
      end
  end.

(** The profile/level value the [i]-th interface currently holds. *)
Definition profileLevelOf (i : nat) (p : Process) : option ProfileLevel :=
  match nth_error (instances p) i with
  | Some x => mProfileLevel x
  | None => None
  end.

(** * Vocabulary of the specification *)

(** ** The level table *)

(** One row and the next: the level grows strictly, no limit shrinks. *)
Definition rowStep (r1 r2 : LevelLimits) : Prop :=
  ll_level r1 < ll_level r2
  /\ F32.leb (maxMBPS r1) (maxMBPS r2) = true
  /\ maxFS r1 <= maxFS r2
  /\ maxBR r1 <= maxBR r2.

Definition rowStepb (r1 r2 : LevelLimits) : bool :=
  (ll_level r1 <? ll_level r2) && F32.leb (maxMBPS r1) (maxMBPS r2)
  && (maxFS r1 <=? maxFS r2) && (maxBR r1 <=? maxBR r2).

Fixpoint chainb (rows : list LevelLimits) : bool :=
  match rows with
  | r1 :: (r2 :: _) as rest => rowStepb r1 r2 && chainb rest
  | _ => true
  end.

(** Table A-2 in exact arithmetic: the factor applied to a row's bitrate
    limit, as a fraction. *)
Definition profileMultiplier (p : profile_t) : Z * Z :=
  if PROFILE_AVC_HIGH_422 <=? p then (4, 1)
  else if PROFILE_AVC_HIGH_10 <=? p then (3, 1)
  else if PROFILE_AVC_HIGH <=? p then (5, 4)
  else (1, 1).

Definition exactRowb (r : LevelLimits) : bool :=
  (u32 (maxBR r * 4) =? maxBR r * 4) && (u32 (maxBR r * 3) =? maxBR r * 3)
  && (scaleHigh (maxBR r) * 4 =? maxBR r * 5).

(** ** The scan and the steps of the H264 setter *)

(** A row the loop does not skip and whose limits cover the configuration. *)
Definition candidate (sup : FieldSupport) (p : profile_t) (fs : Z) (mbps : F32.float)
    (bitrate : Z) (limit : LevelLimits) : bool :=
  supportsAtAll (levels sup) (ll_level limit) && meets p fs mbps bitrate limit.

(** The lowest supported feasible row: the first candidate in table order. *)
Definition firstFeasible (sup : FieldSupport) (p : profile_t) (fs : Z) (mbps : F32.float)
    (bitrate : Z) (rows : list LevelLimits) : option LevelLimits :=
  find (candidate sup p fs mbps bitrate) rows.

(** Whether the loop raises [needsUpdate] before it reaches a candidate: a
    supported row at or above level [l] fails first. *)
Fixpoint stale (sup : FieldSupport) (p : profile_t) (fs : Z) (mbps : F32.float)
    (bitrate : Z) (l : level_t) (rows : list LevelLimits) : bool :=
  match rows with
  | [] => false
  | limit :: rest =>
      if negb (supportsAtAll (levels sup) (ll_level limit))
      then stale sup p fs mbps bitrate l rest
      else if meets p fs mbps bitrate limit then false
      else (l <=? ll_level limit) || stale sup p fs mbps bitrate l rest
  end.

(** The profile the setter continues with, [None] when it gives up. *)
Definition adoptProfile (sup : FieldSupport) (minProfile : profile_t)
    (info : ProfileLevel) : option ProfileLevel :=
  if negb (supportsAtAll (profiles sup) (profile info)) || (profile info <? minProfile)
  then
    if supportsAtAll (profiles sup) minProfile
    then Some (mkProfileLevel minProfile (level info))
    else None
  else Some info.

(** The level the scan starts from: the proposed one, or the remembered one
    when that is set and strictly lower. *)
Definition effectiveLevel (lowest proposed : level_t) : level_t :=
  if negb (lowest =? LEVEL_UNUSED) && (lowest <? proposed) then lowest else proposed.

(** Every supported level has a row in the table. *)
Definition levelsInTable (sup : FieldSupport) : Prop :=
  forall l, In l (levels sup) -> In l (map ll_level kLimits).

(** The claim of C1 as the specification words it: whenever the lowest
    supported feasible row lies below a supported proposed level, the setter
    leaves that row's level. *)
Definition lowestLevelWins (sup : FieldSupport) (lowest : level_t)
    (info : ProfileLevel) (videoSize : PictureSize) (frameRate : F32.float)
    (bitrate : Z) : Prop :=
  forall r : LevelLimits,
    supportsAtAll (levels sup) (level info) = true ->
    firstFeasible sup (profile info) (targetFS videoSize)
      (targetMBPS videoSize frameRate) bitrate kLimits = Some r ->
    ll_level r < level info ->
    level (info_out (H264ProfileLevelSetter sup lowest info videoSize frameRate bitrate))
    = ll_level r.

(** Scenario 1 of the specification: 320x240 at 30 frames per second and
    64000 bits per second, baseline profile, level 4.1 proposed, nothing
    remembered. *)
Definition scenario1_support : FieldSupport :=
  mkFieldSupport [PROFILE_AVC_BASELINE] h264Levels.

Definition scenario1 : SetterOut :=
  H264ProfileLevelSetter scenario1_support LEVEL_UNUSED
    (mkProfileLevel PROFILE_AVC_BASELINE LEVEL_AVC_4_1)
    (mkPictureSize 320 240) (F32.of_Z 30) 64000.

(** ** Interfaces in a process *)

(** The level a request for the [i]-th interface resolves to. *)
Definition resolvedLevel (i : nat) (proposed : ProfileLevel) (p : Process)
    : option level_t :=
  match configProfileLevel i proposed p with
  | Some (_, p') => option_map level (profileLevelOf i p')
  | None => None
  end.

(** A device that reports the baseline profile up to 1920x1080. *)
Definition baselineDevice : option (list SupportedEncodeProfile) :=
  Some [mkSupportedProfile PROFILE_AVC_BASELINE 1920 1080].

(** Two H264 interfaces in one process, nothing resolved yet. *)
Definition twoInterfaces : Process :=
  construct baselineDevice V4L2ComponentName.kH264Encoder
    (construct baselineDevice V4L2ComponentName.kH264Encoder processStart).

(** The same process after level 1 was proposed to the first interface. *)
Definition afterFirstResolved : option Process :=
  option_map snd
    (configProfileLevel 0 (mkProfileLevel PROFILE_AVC_BASELINE LEVEL_AVC_1) twoInterfaces).

(** ** Outcomes of construction *)

(** The three ways construction can fail, in the words of the
    specification. *)
Inductive InitFailure : Type :=
| DeviceUnavailable
| InvalidCodec
| NoSupportedProfiles.

(** Which of them applies to a device outcome and a component name. *)
Definition failureCause (device : option (list SupportedEncodeProfile)) (name : string)
    : option InitFailure :=
  match device with
  | None => Some DeviceUnavailable
  | Some supported_profiles =>
      match getCodecFromComponentName name with
      | None => Some InvalidCodec
      | Some codec =>
          if existsb (fun sp => IsValidProfileForCodec codec (sp_profile sp))
               supported_profiles
          then None
          else Some NoSupportedProfiles
      end
  end.

(** No parameter was registered and no parameter member defined. *)
Definition untouched (x : V4L2EncodeInterface) : Prop :=
  mParams x = [] /\ mInputVisibleSize x = None /\ mFrameRate x = None
  /\ mBitrate x = None /\ mProfileLevel x = None
  /\ mIntraRefreshPeriod x = None /\ mKeyFramePeriodUs x = None.

(** * Properties *)

(** ** The order on floating-point values *)

Lemma SFleb_trans (x y z : spec_float) :
  SFleb x y = true -> SFleb y z = true -> SFleb x z = true.
Proof.
  unfold SFleb.
  destruct x as [sx | sx | | sx mx ex], y as [sy | sy | | sy my ey],
           z as [sz | sz | | sz mz ez]; cbn;
    repeat match goal with s : bool |- _ => destruct s end; cbn;
    try congruence; try reflexivity;
    change (Pos.compare_cont Eq) with Pos.compare;
    destruct (Z.compare_spec ex ey), (Z.compare_spec ey ez), (Z.compare_spec ex ez);
    cbn; try congruence; try lia; subst;
    destruct (Pos.compare_spec mx my), (Pos.compare_spec my mz),
             (Pos.compare_spec mx mz);
    cbn; try congruence; try lia.
Qed.

Lemma SFleb_refl_finite (s : bool) (m : positive) (e : Z) :
  SFleb (S754_finite s m e) (S754_finite s m e) = true.
Proof.
  unfold SFleb; cbn. destruct s; rewrite Z.compare_refl;
    change (Pos.compare_cont Eq) with Pos.compare; rewrite Pos.compare_refl;
    reflexivity.
Qed.

(** ** The level table *)

Lemma rowStepb_spec (r1 r2 : LevelLimits) : rowStepb r1 r2 = true <-> rowStep r1 r2.
Proof.
  unfold rowStepb, rowStep.
  rewrite !andb_true_iff, Z.ltb_lt, !Z.leb_le. tauto.
Qed.

#[local] Instance rowStep_trans : Transitive rowStep.
Proof.
  intros a b c (Hl1 & Hm1 & Hf1 & Hb1) (Hl2 & Hm2 & Hf2 & Hb2).
  repeat split; try lia.
  exact (SFleb_trans _ _ _ Hm1 Hm2).
Qed.

Lemma chainb_Sorted (rows : list LevelLimits) :
  chainb rows = true -> Sorted rowStep rows.
Proof.
  induction rows as [| r1 [| r2 rest] IH]; intros H.
  - constructor.
  - repeat constructor.
  - cbn [chainb] in H. apply andb_true_iff in H as [H1 H2].
    constructor; [exact (IH H2) | constructor; apply rowStepb_spec; exact H1].
Qed.

Lemma kLimits_Sorted : Sorted rowStep kLimits.
Proof. apply chainb_Sorted. vm_compute. reflexivity. Qed.

Lemma kLimits_StronglySorted : StronglySorted rowStep kLimits.
Proof. apply Sorted_StronglySorted; [exact rowStep_trans | exact kLimits_Sorted]. Qed.

(** On the rows of the table neither the [uint32_t] products wrap nor does
    the [double] computation round. *)
Lemma profileMaxBR_exact (p : profile_t) (r : LevelLimits) :
  In r kLimits ->
  profileMaxBR p (maxBR r) * snd (profileMultiplier p)
  = maxBR r * fst (profileMultiplier p).
Proof.
  intros Hin.
  assert (Hall : forallb exactRowb kLimits = true) by (vm_compute; reflexivity).
  rewrite forallb_forall in Hall. specialize (Hall r Hin).
  unfold exactRowb in Hall. rewrite !andb_true_iff, !Z.eqb_eq in Hall.
  destruct Hall as [[H4 H3] H5].
  unfold profileMaxBR, profileMultiplier.
  destruct (PROFILE_AVC_HIGH_422 <=? p); [cbn [fst snd]; lia |].
  destruct (PROFILE_AVC_HIGH_10 <=? p); [cbn [fst snd]; lia |].
  destruct (PROFILE_AVC_HIGH <=? p); cbn [fst snd]; lia.
Qed.

Lemma profileMultiplier_pos (p : profile_t) :
  0 < fst (profileMultiplier p) /\ 0 < snd (profileMultiplier p).
Proof.
  unfold profileMultiplier.
  destruct (PROFILE_AVC_HIGH_422 <=? p); [cbn; lia |].
  destruct (PROFILE_AVC_HIGH_10 <=? p); [cbn; lia |].
  destruct (PROFILE_AVC_HIGH <=? p); cbn; lia.
Qed.

Lemma profileMaxBR_mono (p : profile_t) (r1 r2 : LevelLimits) :
  In r1 kLimits -> In r2 kLimits -> maxBR r1 <= maxBR r2 ->
  profileMaxBR p (maxBR r1) <= profileMaxBR p (maxBR r2).
Proof.
  intros H1 H2 Hle.
  pose proof (profileMaxBR_exact p r1 H1) as E1.
  pose proof (profileMaxBR_exact p r2 H2) as E2.
  destruct (profileMultiplier_pos p) as [Hn Hd]. nia.
Qed.

(** A row that meets the configuration is met by every row that dominates
    it. *)
Lemma meets_rowStep (p : profile_t) (fs : Z) (mbps : F32.float) (bitrate : Z)
    (r1 r2 : LevelLimits) :
  In r1 kLimits -> In r2 kLimits -> rowStep r1 r2 ->
  meets p fs mbps bitrate r1 = true -> meets p fs mbps bitrate r2 = true.
Proof.
  intros H1 H2 (_ & Hm & Hf & Hb) H.
  unfold meets in *. rewrite !andb_true_iff, !Z.leb_le in *.
  destruct H as [[Hfs Hmb] Hbr].
  pose proof (profileMaxBR_mono p r1 r2 H1 H2 Hb).
  repeat split; try lia.
  exact (SFleb_trans _ _ _ Hmb Hm).
Qed.

(** Two rows of a strongly sorted table are equal or related, in the
    direction their levels say. *)
Lemma sorted_rows_le (rows : list LevelLimits) (r1 r2 : LevelLimits) :
  StronglySorted rowStep rows -> In r1 rows -> In r2 rows ->
  ll_level r1 <= ll_level r2 -> r1 = r2 \/ rowStep r1 r2.
Proof.
  induction 1 as [| a l Hs IH Hall]; intros H1 H2 Hle; [destruct H1 |].
  rewrite Forall_forall in Hall.
  destruct H1 as [-> | H1], H2 as [-> | H2].
  - now left.
  - right. now apply Hall.
  - exfalso. destruct (Hall _ H1) as [Hlt _]. lia.
  - now apply IH.
Qed.

(** ** The scan of the table *)

Section Scan.
Variable sup : FieldSupport.
Variable p : profile_t.
Variable fs : Z.
Variable mbps : F32.float.

Lemma scanLimits_spec (bitrate : Z) (rows : list LevelLimits) :
  forall st : LoopState,
    ls_found st = false -> profile (ls_info st) = p ->
    let st' := scanLimits sup fs mbps bitrate rows st in
    match firstFeasible sup p fs mbps bitrate rows with
    | None =>
        ls_found st' = false /\ ls_info st' = ls_info st /\ ls_lowest st' = ls_lowest st
    | Some r =>
        ls_found st' = true /\
        if ls_needsUpdate st || stale sup p fs mbps bitrate (level (ls_info st)) rows
        then ls_info st' = mkProfileLevel p (ll_level r)
             /\ ls_lowest st' = level (ls_info st)
        else ls_info st' = ls_info st /\ ls_lowest st' = ls_lowest st
    end.
Proof.
  induction rows as [| limit rest IH]; intros st Hf Hp; cbn zeta.
  - cbn. auto.
  - cbn [scanLimits firstFeasible find stale]. unfold candidate at 1.
    destruct (supportsAtAll (levels sup) (ll_level limit)) eqn:Hs; cbn [negb andb].
    + rewrite Hp.
      destruct (meets p fs mbps bitrate limit) eqn:Hm.
      * rewrite orb_false_r.
        destruct (ls_needsUpdate st); cbn; rewrite ?Hp; auto.
      * destruct (level (ls_info st) <=? ll_level limit) eqn:Hle.
        -- specialize (IH (mkLoop (ls_info st) (ls_lowest st) (ls_found st) true) Hf Hp).
           cbn [ls_info ls_lowest ls_needsUpdate ls_found] in IH.
           fold (firstFeasible sup p fs mbps bitrate rest).
           destruct (firstFeasible sup p fs mbps bitrate rest); cbn [orb] in IH |- *;
             [rewrite orb_true_r | ]; exact IH.
        -- specialize (IH st Hf Hp). fold (firstFeasible sup p fs mbps bitrate rest).
           cbn [orb]. exact IH.
    + specialize (IH st Hf Hp). exact IH.
Qed.

Lemma firstFeasible_In (bitrate : Z) (rows : list LevelLimits) (r : LevelLimits) :
  firstFeasible sup p fs mbps bitrate rows = Some r ->
  In r rows /\ supportsAtAll (levels sup) (ll_level r) = true
  /\ meets p fs mbps bitrate r = true.
Proof.
  intros H. apply find_some in H as [Hin Hc].
  unfold candidate in Hc. apply andb_true_iff in Hc. tauto.
Qed.

(** In a sorted table the flag is raised before the first candidate only
    for a level below that candidate. *)
Lemma stale_lt (bitrate : Z) (l : level_t) (rows : list LevelLimits) (r : LevelLimits) :
  StronglySorted rowStep rows ->
  firstFeasible sup p fs mbps bitrate rows = Some r ->
  stale sup p fs mbps bitrate l rows = true -> l < ll_level r.
Proof.
  induction 1 as [| a rest Hs IH Hall]; intros Hf Hst; [discriminate |].
  cbn [firstFeasible find stale] in Hf, Hst. unfold candidate at 1 in Hf.
  destruct (supportsAtAll (levels sup) (ll_level a)); cbn [negb andb] in Hf, Hst.
  - destruct (meets p fs mbps bitrate a); [discriminate |].
    apply orb_true_iff in Hst as [Hle | Hst].
    + apply Z.leb_le in Hle.
      apply firstFeasible_In in Hf as [Hin _].
      rewrite Forall_forall in Hall. destruct (Hall _ Hin) as [Hlt _]. lia.
    + now apply IH.
  - now apply IH.
Qed.

(** Conversely, a supported level of the table that lies below the first
    candidate raises the flag. *)
Lemma stale_below (bitrate : Z) (l : level_t) (rows : list LevelLimits) (r : LevelLimits) :
  StronglySorted rowStep rows ->
  firstFeasible sup p fs mbps bitrate rows = Some r ->
  supportsAtAll (levels sup) l = true ->
  In l (map ll_level rows) ->
  l < ll_level r ->
  stale sup p fs mbps bitrate l rows = true.
Proof.
  induction 1 as [| a rest Hs IH Hall]; intros Hf Hsup Hin Hlt; [discriminate |].
  cbn [firstFeasible find stale] in Hf |- *. unfold candidate at 1 in Hf.
  destruct Hin as [Ha | Hin].
  - subst l. rewrite Hsup in *. cbn [negb andb] in *.
    destruct (meets p fs mbps bitrate a).
    + injection Hf as ->. lia.
    + rewrite Z.leb_refl. reflexivity.
  - destruct (supportsAtAll (levels sup) (ll_level a)); cbn [negb andb] in *.
    + destruct (meets p fs mbps bitrate a).
      * injection Hf as ->. exfalso.
        apply in_map_iff in Hin as (r' & <- & Hr').
        rewrite Forall_forall in Hall. destruct (Hall _ Hr') as [Hlt' _]. lia.
      * rewrite (IH Hf Hsup Hin Hlt). apply orb_true_r.
    + now apply IH.
Qed.

Lemma meets_bitrate_mono (b1 b2 : Z) (limit : LevelLimits) :
  b1 <= b2 -> meets p fs mbps b2 limit = true -> meets p fs mbps b1 limit = true.
Proof.
  unfold meets. rewrite !andb_true_iff, !Z.leb_le. intuition lia.
Qed.

(** Lowering the bitrate moves the first candidate down the table and can
    only lower the flag. *)
Lemma firstFeasible_mono (b1 b2 : Z) (l : level_t) (rows : list LevelLimits)
    (r2 : LevelLimits) :
  b1 <= b2 ->
  StronglySorted rowStep rows ->
  firstFeasible sup p fs mbps b2 rows = Some r2 ->
  exists r1, firstFeasible sup p fs mbps b1 rows = Some r1
             /\ ll_level r1 <= ll_level r2
             /\ (stale sup p fs mbps b1 l rows = true -> stale sup p fs mbps b2 l rows = true).
Proof.
  intros Hb. induction 1 as [| a rest Hs IH Hall]; intros Hf; [discriminate |].
  cbn [firstFeasible find stale] in Hf |- *. unfold candidate at 1 in Hf.
  unfold candidate at 1.
  destruct (supportsAtAll (levels sup) (ll_level a)); cbn [negb andb] in *.
  - destruct (meets p fs mbps b2 a) eqn:H2.
    + injection Hf as <-. rewrite (meets_bitrate_mono b1 b2 a Hb H2).
      exists a. repeat split; [lia | auto].
    + destruct (meets p fs mbps b1 a) eqn:H1.
      * exists a. repeat split; [| discriminate].
        apply firstFeasible_In in Hf as [Hin _].
        rewrite Forall_forall in Hall. destruct (Hall _ Hin) as [Hlt _]. lia.
      * destruct (IH Hf) as (r1 & Hr1 & Hle & Hst).
        exists r1. repeat split; [exact Hr1 | exact Hle |].
        rewrite !orb_true_iff. intuition.
  - exact (IH Hf).
Qed.
End Scan.

(** ** The H264 setter, step by step *)

Lemma H264ProfileLevelSetter_unfold (sup : FieldSupport) (lowest : level_t)
    (info : ProfileLevel) (videoSize : PictureSize) (frameRate : F32.float)
    (bitrate : Z) :
  H264ProfileLevelSetter sup lowest info videoSize frameRate bitrate =
  match adoptProfile sup PROFILE_AVC_BASELINE info with
  | None => mkOut (BadValue F_profile) info lowest
  | Some info1 =>
      let l := effectiveLevel lowest (level info1) in
      let p := profile info1 in
      match firstFeasible sup p (targetFS videoSize) (targetMBPS videoSize frameRate)
              bitrate kLimits with
      | None => mkOut (BadValue F_level) (mkProfileLevel p l) lowest
      | Some r =>
          if negb (supportsAtAll (levels sup) l)
             || stale sup p (targetFS videoSize) (targetMBPS videoSize frameRate)
                  bitrate l kLimits
          then mkOut Ok (mkProfileLevel p (ll_level r)) l
          else mkOut Ok (mkProfileLevel p l) lowest
      end
  end.
Proof.
  unfold H264ProfileLevelSetter.
  change (if negb (supportsAtAll (profiles sup) (profile info))
             || (profile info <? PROFILE_AVC_BASELINE)
          then if supportsAtAll (profiles sup) PROFILE_AVC_BASELINE
               then Some (mkProfileLevel PROFILE_AVC_BASELINE (level info))
               else None
          else Some info)
    with (adoptProfile sup PROFILE_AVC_BASELINE info).
  destruct (adoptProfile sup PROFILE_AVC_BASELINE info) as [info1 |]; [| reflexivity].
  cbn zeta.
  set (info2 := if negb (lowest =? LEVEL_UNUSED) && (lowest <? level info1)
                then mkProfileLevel (profile info1) lowest else info1).
  assert (E2 : info2 = mkProfileLevel (profile info1) (effectiveLevel lowest (level info1))).
  { unfold info2, effectiveLevel.
    destruct (negb (lowest =? LEVEL_UNUSED) && (lowest <? level info1));
      [reflexivity | destruct info1; reflexivity]. }
  rewrite E2. clear E2 info2.
  set (l := effectiveLevel lowest (level info1)).
  change (level (mkProfileLevel (profile info1) l)) with l.
  set (st0 := mkLoop (mkProfileLevel (profile info1) l) lowest false
                (negb (supportsAtAll (levels sup) l))).
  pose proof (scanLimits_spec sup (profile info1) (targetFS videoSize)
                (targetMBPS videoSize frameRate) bitrate kLimits st0
                eq_refl eq_refl) as Hscan.
  cbn zeta in Hscan.
  destruct (firstFeasible sup (profile info1) (targetFS videoSize)
              (targetMBPS videoSize frameRate) bitrate kLimits) as [r |].
  - destruct Hscan as [Hfound Hrest]. rewrite Hfound.
    cbn [st0 ls_needsUpdate ls_info ls_lowest level] in Hrest.
    destruct (negb (supportsAtAll (levels sup) l)
              || stale sup (profile info1) (targetFS videoSize)
                   (targetMBPS videoSize frameRate) bitrate l kLimits);
      destruct Hrest as [-> ->]; reflexivity.
  - destruct Hscan as (Hfound & -> & ->). rewrite Hfound. reflexivity.
Qed.

Lemma effectiveLevel_idem (lowest proposed : level_t) :
  effectiveLevel (effectiveLevel lowest proposed) proposed = effectiveLevel lowest proposed.
Proof.
  unfold effectiveLevel at 2 3.
  destruct (negb (lowest =? LEVEL_UNUSED) && (lowest <? proposed)) eqn:E.
  - unfold effectiveLevel. rewrite E. reflexivity.
  - unfold effectiveLevel. rewrite Z.ltb_irrefl, andb_false_r. reflexivity.
Qed.

Lemma adoptProfile_level (sup : FieldSupport) (minProfile : profile_t)
    (info info1 : ProfileLevel) :
  adoptProfile sup minProfile info = Some info1 -> level info1 = level info.
Proof.
  unfold adoptProfile.
  destruct (negb (supportsAtAll (profiles sup) (profile info)) || (profile info <? minProfile)).
  - destruct (supportsAtAll (profiles sup) minProfile); [| discriminate].
    intros [= <-]. reflexivity.
  - intros [= <-]. reflexivity.
Qed.

Lemma supportsAtAll_In (values : list Z) (v : Z) :
  supportsAtAll values v = true <-> In v values.
Proof.
  unfold supportsAtAll. rewrite existsb_exists. split.
  - intros (x & Hin & Heq). apply Z.eqb_eq in Heq. now subst.
  - intros H. exists v. split; [exact H | apply Z.eqb_refl].
Qed.

Lemma h264Levels_inTable (ps : list profile_t) :
  levelsInTable (mkFieldSupport ps h264Levels).
Proof.
  intros l Hin. cbn [levels] in Hin.
  repeat (destruct Hin as [<- | Hin]; [vm_compute; tauto |]). destruct Hin.
Qed.

(** ** Claims about the H264 level resolution *)

Lemma kLimits_upward_closed (p : profile_t) (fs : Z) (mbps : F32.float) (bitrate : Z)
    (r1 r2 : LevelLimits) :
  In r1 kLimits -> In r2 kLimits -> ll_level r1 <= ll_level r2 ->
  meets p fs mbps bitrate r1 = true -> meets p fs mbps bitrate r2 = true.
Proof.
  intros H1 H2 Hle Hm.
  destruct (sorted_rows_le kLimits r1 r2 kLimits_StronglySorted H1 H2 Hle) as [<- | Hstep].
  - exact Hm.
  - exact (meets_rowStep p fs mbps bitrate r1 r2 H1 H2 Hstep Hm).
Qed.

(** C10: in [kLimits] each row has a strictly higher level than the one
    before it and no smaller [maxMBPS], [maxFS] or [maxBR]; hence, for any
    size, frame rate, bitrate and profile, a configuration met by one row of
    the table is met by every row of a higher level. *)
Theorem kLimits_increasing_and_upward_closed :
  Sorted rowStep kLimits
  /\ forall (p : profile_t) (fs : Z) (mbps : F32.float) (bitrate : Z)
            (r1 r2 : LevelLimits),
       In r1 kLimits -> In r2 kLimits -> ll_level r1 <= ll_level r2 ->
       meets p fs mbps bitrate r1 = true -> meets p fs mbps bitrate r2 = true.
Proof.
  split; [exact kLimits_Sorted | exact kLimits_upward_closed].
Qed.

Lemma kLimits_increasing_and_upward_closed_witness :
  meets PROFILE_AVC_HIGH 300 (F32.of_Z 9000) 900000
        (limits LEVEL_AVC_4_1 245760 8192 50000000) = true.
Proof.
  apply (proj2 kLimits_increasing_and_upward_closed PROFILE_AVC_HIGH 300
           (F32.of_Z 9000) 900000
           (limits LEVEL_AVC_1_3 11880 396 768000)
           (limits LEVEL_AVC_4_1 245760 8192 50000000)).
  - vm_compute; tauto.
  - vm_compute; tauto.
  - vm_compute; discriminate.
  - vm_compute; reflexivity.
Defined.

(** C1, as stated, fails on scenario 1: the first row that covers 300
    macroblocks, 9000 macroblocks per second and 64000 bits per second is
    level 1.3, yet the setter accepts and keeps level 4.1. *)
Lemma scenario1_keeps_proposed_level :
  (result scenario1 = Ok /\ level (info_out scenario1) = LEVEL_AVC_4_1)
  /\ firstFeasible scenario1_support PROFILE_AVC_BASELINE
       (targetFS (mkPictureSize 320 240))
       (targetMBPS (mkPictureSize 320 240) (F32.of_Z 30)) 64000 kLimits
     = Some (limits LEVEL_AVC_1_3 11880 396 768000)
  /\ ~ lowestLevelWins scenario1_support LEVEL_UNUSED
         (mkProfileLevel PROFILE_AVC_BASELINE LEVEL_AVC_4_1)
         (mkPictureSize 320 240) (F32.of_Z 30) 64000.
Proof.
  split; [split; vm_compute; reflexivity |].
  split; [vm_compute; reflexivity |].
  intros H.
  specialize (H (limits LEVEL_AVC_1_3 11880 396 768000)).
  assert (E : level (info_out scenario1) = ll_level (limits LEVEL_AVC_1_3 11880 396 768000)).
  { apply H; vm_compute; reflexivity. }
  vm_compute in E. discriminate E.
Qed.

(** What the setter leaves when the profile step passes and some supported
    row is feasible. *)
Lemma H264_resolved_level_general
    (sup : FieldSupport) (lowest : level_t) (info : ProfileLevel)
    (videoSize : PictureSize) (frameRate : F32.float) (bitrate : Z)
    (r : LevelLimits) :
  let out := H264ProfileLevelSetter sup lowest info videoSize frameRate bitrate in
  let l := effectiveLevel lowest (level info) in
  levelsInTable sup ->
  result out <> BadValue F_profile ->
  firstFeasible sup (profile (info_out out)) (targetFS videoSize)
    (targetMBPS videoSize frameRate) bitrate kLimits = Some r ->
  result out = Ok
  /\ level (info_out out)
     = if supportsAtAll (levels sup) l then Z.max l (ll_level r) else ll_level r.
Proof.
  cbn zeta. intros Htab.
  rewrite H264ProfileLevelSetter_unfold.
  destruct (adoptProfile sup PROFILE_AVC_BASELINE info) as [info1 |] eqn:Ha;
    [| cbn [result]; congruence].
  rewrite <- (adoptProfile_level _ _ _ _ Ha).
  cbn zeta. set (l := effectiveLevel lowest (level info1)).
  set (p := profile info1).
  set (fs := targetFS videoSize). set (mbps := targetMBPS videoSize frameRate).
  intros _ Hr.
  assert (Hf : firstFeasible sup p fs mbps bitrate kLimits = Some r).
  { destruct (firstFeasible sup p fs mbps bitrate kLimits) eqn:Hf0;
      [destruct (negb (supportsAtAll (levels sup) l) || stale sup p fs mbps bitrate l kLimits) |];
      cbn [info_out profile] in Hr; congruence. }
  clear Hr. rewrite Hf.
  destruct (supportsAtAll (levels sup) l) eqn:Hs; cbn [negb orb].
  - destruct (stale sup p fs mbps bitrate l kLimits) eqn:Hst; cbn [result info_out level].
    + pose proof (stale_lt sup p fs mbps bitrate l kLimits r kLimits_StronglySorted Hf Hst).
      split; [reflexivity | lia].
    + split; [reflexivity |].
      destruct (Z_lt_le_dec l (ll_level r)) as [Hlt | Hle]; [| lia].
      apply supportsAtAll_In in Hs.
      rewrite (stale_below sup p fs mbps bitrate l kLimits r kLimits_StronglySorted Hf
                 (proj2 (supportsAtAll_In _ _) Hs) (Htab _ Hs) Hlt) in Hst.
      discriminate.
  - cbn [result info_out level]. split; reflexivity.
Qed.

(** C1, amended: for a supported-level list whose levels all have a row in
    the table, when the profile step passes and some supported row is
    feasible, the setter accepts, and the level it leaves follows from the
    level it starts from (the proposed one, or the remembered one when that
    is set and strictly lower): if the starting level is supported it is the
    higher of the starting level and the lowest supported feasible level,
    and if the starting level is unsupported it is the lowest supported
    feasible level.  On scenario 1 the first feasible row is level 1.3 and
    the setter keeps level 4.1; with level 1 remembered the same request is
    resolved to level 1.3. *)
Theorem H264_resolved_level
    (sup : FieldSupport) (lowest : level_t) (info : ProfileLevel)
    (videoSize : PictureSize) (frameRate : F32.float) (bitrate : Z)
    (r : LevelLimits) :
  let out := H264ProfileLevelSetter sup lowest info videoSize frameRate bitrate in
  let l := effectiveLevel lowest (level info) in
  (levelsInTable sup ->
   result out <> BadValue F_profile ->
   firstFeasible sup (profile (info_out out)) (targetFS videoSize)
     (targetMBPS videoSize frameRate) bitrate kLimits = Some r ->
   result out = Ok
   /\ level (info_out out)
      = if supportsAtAll (levels sup) l then Z.max l (ll_level r) else ll_level r)
  /\ (firstFeasible scenario1_support PROFILE_AVC_BASELINE
        (targetFS (mkPictureSize 320 240))
        (targetMBPS (mkPictureSize 320 240) (F32.of_Z 30)) 64000 kLimits
      = Some (limits LEVEL_AVC_1_3 11880 396 768000)
      /\ scenario1
         = mkOut Ok (mkProfileLevel PROFILE_AVC_BASELINE LEVEL_AVC_4_1) LEVEL_UNUSED
      /\ H264ProfileLevelSetter scenario1_support LEVEL_AVC_1
           (mkProfileLevel PROFILE_AVC_BASELINE LEVEL_AVC_4_1)
           (mkPictureSize 320 240) (F32.of_Z 30) 64000
         = mkOut Ok (mkProfileLevel PROFILE_AVC_BASELINE LEVEL_AVC_1_3) LEVEL_AVC_1).
Proof.
  cbn zeta. split.
  - exact (H264_resolved_level_general sup lowest info videoSize frameRate bitrate r).
  - repeat split; vm_compute; reflexivity.
Qed.

Lemma H264_resolved_level_witness :
  result scenario1 = Ok
  /\ level (info_out scenario1) = Z.max LEVEL_AVC_4_1 LEVEL_AVC_1_3.
Proof.
  apply (proj1 (H264_resolved_level scenario1_support LEVEL_UNUSED
           (mkProfileLevel PROFILE_AVC_BASELINE LEVEL_AVC_4_1)
           (mkPictureSize 320 240) (F32.of_Z 30) 64000
           (limits LEVEL_AVC_1_3 11880 396 768000))).
  - apply h264Levels_inTable.
  - vm_compute; discriminate.
  - vm_compute; reflexivity.
Defined.

(** C2: whenever the H264 setter returns Ok, the level it leaves has a row
    in the table whose limits cover the configuration: the target frame size
    is at most [maxFS], the target macroblock rate at most [maxMBPS] and the
    bitrate at most [maxBR] times the multiplier of the resolved profile.
    This includes a proposed level that is kept after only a lower row was
    tested. *)
Theorem H264_resolved_level_feasible
    (sup : FieldSupport) (lowest : level_t) (info : ProfileLevel)
    (videoSize : PictureSize) (frameRate : F32.float) (bitrate : Z) :
  let out := H264ProfileLevelSetter sup lowest info videoSize frameRate bitrate in
  levelsInTable sup ->
  result out = Ok ->
  exists row : LevelLimits,
    In row kLimits
    /\ ll_level row = level (info_out out)
    /\ targetFS videoSize <= maxFS row
    /\ F32.leb (targetMBPS videoSize frameRate) (maxMBPS row) = true
    /\ bitrate * snd (profileMultiplier (profile (info_out out)))
       <= maxBR row * fst (profileMultiplier (profile (info_out out))).
Proof.
  cbn zeta. intros Htab.
  rewrite H264ProfileLevelSetter_unfold.
  destruct (adoptProfile sup PROFILE_AVC_BASELINE info) as [info1 |];
    [| cbn [result]; discriminate].
  cbn zeta. set (l := effectiveLevel lowest (level info1)).
  set (p := profile info1).
  set (fs := targetFS videoSize). set (mbps := targetMBPS videoSize frameRate).
  destruct (firstFeasible sup p fs mbps bitrate kLimits) as [r |] eqn:Hf;
    [| cbn [result]; discriminate].
  destruct (firstFeasible_In sup p fs mbps bitrate kLimits r Hf) as (Hin & Hsr & Hm).
  assert (Hcover : forall row, In row kLimits -> meets p fs mbps bitrate row = true ->
            fs <= maxFS row /\ F32.leb mbps (maxMBPS row) = true
            /\ bitrate * snd (profileMultiplier p) <= maxBR row * fst (profileMultiplier p)).
  { intros row Hrow Hmeets. unfold meets in Hmeets.
    rewrite !andb_true_iff, !Z.leb_le in Hmeets. destruct Hmeets as [[H1 H2] H3].
    pose proof (profileMaxBR_exact p row Hrow) as E.
    destruct (profileMultiplier_pos p) as [_ Hd].
    repeat split; [exact H1 | exact H2 | nia]. }
  destruct (supportsAtAll (levels sup) l) eqn:Hs; cbn [negb orb].
  - destruct (stale sup p fs mbps bitrate l kLimits) eqn:Hst;
      cbn [result info_out level profile]; intros _.
    + exists r. split; [exact Hin | split; [reflexivity | exact (Hcover r Hin Hm)]].
    + apply supportsAtAll_In in Hs. pose proof (Htab _ Hs) as Hl.
      apply in_map_iff in Hl as (row & Hrl & Hrow).
      exists row. split; [exact Hrow | split; [exact Hrl |]].
      apply (Hcover row Hrow).
      apply (kLimits_upward_closed p fs mbps bitrate r row Hin Hrow);
        [| exact Hm].
      destruct (Z_lt_le_dec l (ll_level r)) as [Hlt | Hle]; [| lia].
      rewrite (stale_below sup p fs mbps bitrate l kLimits r kLimits_StronglySorted Hf
                 (proj2 (supportsAtAll_In _ _) Hs) (Htab _ Hs) Hlt) in Hst.
      discriminate.
  - cbn [result info_out level profile]. intros _.
    exists r. split; [exact Hin | split; [reflexivity | exact (Hcover r Hin Hm)]].
Qed.

Lemma H264_resolved_level_feasible_witness :
  exists row : LevelLimits,
    In row kLimits
    /\ ll_level row = level (info_out scenario1)
    /\ targetFS (mkPictureSize 320 240) <= maxFS row
    /\ F32.leb (targetMBPS (mkPictureSize 320 240) (F32.of_Z 30)) (maxMBPS row) = true
    /\ 64000 * snd (profileMultiplier (profile (info_out scenario1)))
       <= maxBR row * fst (profileMultiplier (profile (info_out scenario1))).
Proof.
  apply (H264_resolved_level_feasible scenario1_support LEVEL_UNUSED
           (mkProfileLevel PROFILE_AVC_BASELINE LEVEL_AVC_4_1)
           (mkPictureSize 320 240) (F32.of_Z 30) 64000).
  - apply h264Levels_inTable.
  - vm_compute; reflexivity.
Defined.

(** C4: for a fixed supported set, remembered level, proposed value, size
    and frame rate, and two bitrates [b1 <= b2]: if the setter accepts at
    [b2] it accepts at [b1], the lowest feasible level found for [b1] is at
    most the one found for [b2], and so is the level the setter leaves. *)
Theorem H264_level_monotone_in_bitrate
    (sup : FieldSupport) (lowest : level_t) (info : ProfileLevel)
    (videoSize : PictureSize) (frameRate : F32.float) (b1 b2 : Z) :
  let out1 := H264ProfileLevelSetter sup lowest info videoSize frameRate b1 in
  let out2 := H264ProfileLevelSetter sup lowest info videoSize frameRate b2 in
  b1 <= b2 ->
  result out2 = Ok ->
  result out1 = Ok
  /\ level (info_out out1) <= level (info_out out2)
  /\ exists r1 r2 : LevelLimits,
       firstFeasible sup (profile (info_out out1)) (targetFS videoSize)
         (targetMBPS videoSize frameRate) b1 kLimits = Some r1
       /\ firstFeasible sup (profile (info_out out2)) (targetFS videoSize)
            (targetMBPS videoSize frameRate) b2 kLimits = Some r2
       /\ ll_level r1 <= ll_level r2.
Proof.
  cbn zeta. intros Hb.
  rewrite !H264ProfileLevelSetter_unfold.
  destruct (adoptProfile sup PROFILE_AVC_BASELINE info) as [info1 |];
    [| cbn [result]; discriminate].
  cbn zeta. set (l := effectiveLevel lowest (level info1)).
  set (p := profile info1).
  set (fs := targetFS videoSize). set (mbps := targetMBPS videoSize frameRate).
  destruct (firstFeasible sup p fs mbps b2 kLimits) as [r2 |] eqn:Hf2;
    [| cbn [result]; discriminate].
  destruct (firstFeasible_mono sup p fs mbps b1 b2 l kLimits r2 Hb
              kLimits_StronglySorted Hf2) as (r1 & Hf1 & Hle & Hst).
  rewrite Hf1. intros _.
  assert (Hp : forall (c : bool) (a b : SetterOut),
             profile (info_out a) = p -> profile (info_out b) = p ->
             profile (info_out (if c then a else b)) = p)
    by (intros [] ? ?; auto).
  rewrite !Hp by reflexivity.
  assert (Hres : forall (c : bool) (a b : SetterOut),
             result a = Ok -> result b = Ok -> result (if c then a else b) = Ok)
    by (intros [] ? ?; auto).
  split; [apply Hres; reflexivity |].
  split; [| exists r1, r2; auto].
  destruct (supportsAtAll (levels sup) l) eqn:Hs; cbn [negb orb].
  - destruct (stale sup p fs mbps b1 l kLimits) eqn:Hst1.
    + rewrite (Hst eq_refl). cbn [info_out level]. exact Hle.
    + destruct (stale sup p fs mbps b2 l kLimits) eqn:Hst2; cbn [info_out level]; [| lia].
      pose proof (stale_lt sup p fs mbps b2 l kLimits r2 kLimits_StronglySorted Hf2 Hst2).
      lia.
  - cbn [info_out level]. exact Hle.
Qed.

Lemma H264_level_monotone_in_bitrate_witness :
  let sup := mkFieldSupport [PROFILE_AVC_BASELINE] h264Levels in
  let info := mkProfileLevel PROFILE_AVC_BASELINE LEVEL_AVC_1 in
  let size := mkPictureSize 320 240 in
  let out1 := H264ProfileLevelSetter sup LEVEL_UNUSED info size (F32.of_Z 30) 64000 in
  let out2 := H264ProfileLevelSetter sup LEVEL_UNUSED info size (F32.of_Z 30) 3000000 in
  result out1 = Ok
  /\ level (info_out out1) <= level (info_out out2)
  /\ exists r1 r2 : LevelLimits,
       firstFeasible sup (profile (info_out out1)) (targetFS size)
         (targetMBPS size (F32.of_Z 30)) 64000 kLimits = Some r1
       /\ firstFeasible sup (profile (info_out out2)) (targetFS size)
            (targetMBPS size (F32.of_Z 30)) 3000000 kLimits = Some r2
       /\ ll_level r1 <= ll_level r2.
Proof.
  cbn zeta.
  apply (H264_level_monotone_in_bitrate
           (mkFieldSupport [PROFILE_AVC_BASELINE] h264Levels) LEVEL_UNUSED
           (mkProfileLevel PROFILE_AVC_BASELINE LEVEL_AVC_1)
           (mkPictureSize 320 240) (F32.of_Z 30) 64000 3000000).
  - lia.
  - vm_compute; reflexivity.
Defined.

(** C5: running the H264 setter a second time on the same proposed value,
    size, frame rate and bitrate, starting from the remembered level the
    first run left, gives the same result, the same resolved value and the
    same remembered level as the first run. *)
Theorem H264_resolution_idempotent
    (sup : FieldSupport) (lowest : level_t) (info : ProfileLevel)
    (videoSize : PictureSize) (frameRate : F32.float) (bitrate : Z) :
  let out1 := H264ProfileLevelSetter sup lowest info videoSize frameRate bitrate in
  let out2 := H264ProfileLevelSetter sup (lowest_out out1) info videoSize frameRate
                bitrate in
  result out2 = result out1
  /\ info_out out2 = info_out out1
  /\ lowest_out out2 = lowest_out out1.
Proof.
  cbn zeta.
  rewrite (H264ProfileLevelSetter_unfold sup lowest).
  destruct (adoptProfile sup PROFILE_AVC_BASELINE info) as [info1 |] eqn:Ha.
  - cbn zeta. set (l := effectiveLevel lowest (level info1)).
    set (p := profile info1).
    set (fs := targetFS videoSize). set (mbps := targetMBPS videoSize frameRate).
    destruct (firstFeasible sup p fs mbps bitrate kLimits) as [r |] eqn:Hf.
    + destruct (negb (supportsAtAll (levels sup) l) || stale sup p fs mbps bitrate l kLimits)
        eqn:Hflag; cbn [lowest_out].
      * rewrite H264ProfileLevelSetter_unfold, Ha. cbn zeta.
        fold p fs mbps.
        assert (E : effectiveLevel l (level info1) = l) by apply effectiveLevel_idem.
        rewrite !E, Hf, Hflag. auto.
      * rewrite H264ProfileLevelSetter_unfold, Ha. cbn zeta.
        fold l p fs mbps. rewrite Hf, Hflag. auto.
    + cbn [lowest_out]. rewrite H264ProfileLevelSetter_unfold, Ha. cbn zeta.
      fold l p fs mbps. rewrite Hf. auto.
  - cbn [lowest_out]. rewrite H264ProfileLevelSetter_unfold, Ha. auto.
Qed.

(** ** The static remembered level and the interface instances *)

(** C3, as stated, fails: with two interfaces in one process, a resolution
    on the first one changes what the same request resolves to on the second
    one (level 1.3 instead of level 4.1), and an interface constructed
    afterwards starts with level 1 remembered, not with an empty memory. *)
Lemma second_interface_observes_first :
  resolvedLevel 1 (mkProfileLevel PROFILE_AVC_BASELINE LEVEL_AVC_4_1) twoInterfaces
  = Some LEVEL_AVC_4_1
  /\ option_map (resolvedLevel 1 (mkProfileLevel PROFILE_AVC_BASELINE LEVEL_AVC_4_1))
       afterFirstResolved
     = Some (Some LEVEL_AVC_1_3)
  /\ option_map
       (fun p => lowestConfigLevel
                   (construct baselineDevice V4L2ComponentName.kH264Encoder p))
       afterFirstResolved
     = Some LEVEL_AVC_1
  /\ LEVEL_AVC_1 <> LEVEL_UNUSED.
Proof.
  repeat split; try (vm_compute; reflexivity).
  vm_compute; discriminate.
Qed.

Lemma nth_error_replace_other {A : Type} (i j : nat) (x : A) (l : list A) :
  i <> j -> nth_error (replace i x l) j = nth_error l j.
Proof.
  revert i j. induction l as [| y rest IH]; intros i j Hne.
  - destruct i; reflexivity.
  - destruct i as [| i], j as [| j]; cbn [replace nth_error];
      try reflexivity; [congruence | apply IH; congruence].
Qed.

(** A request on one interface leaves the other interfaces as they were. *)
Lemma configProfileLevel_other (i j : nat) (proposed : ProfileLevel) (p p' : Process)
    (r : C2R) :
  i <> j ->
  configProfileLevel i proposed p = Some (r, p') ->
  nth_error (instances p') j = nth_error (instances p) j.
Proof.
  intros Hne. unfold configProfileLevel.
  destruct (nth_error (instances p) i) as [x |]; [| discriminate].
  destruct (mProfileLevelKind x), (mInputVisibleSize x), (mFrameRate x), (mBitrate x);
    try discriminate.
  - intros [= _ <-]. cbn [instances].
    destruct (result _); [apply nth_error_replace_other; exact Hne | reflexivity].
  - destruct (VP9ProfileLevelSetter (mProfileLevelFields x) proposed) as [r0 v].
    intros [= _ <-]. cbn [instances].
    destruct r0; [apply nth_error_replace_other; exact Hne | reflexivity].
Qed.

(** C3, amended: the remembered level is one variable of the whole process.
    It is empty when the process starts; constructing or destroying an
    interface leaves it as it is; a profile/level request on any H264
    interface runs the setter on the current value and stores the value the
    setter leaves; and so a request on one interface starts from what a
    request on another interface left. *)
Theorem lowestConfigLevel_process_wide :
  lowestConfigLevel processStart = LEVEL_UNUSED
  /\ (forall device name p,
        lowestConfigLevel (construct device name p) = lowestConfigLevel p)
  /\ (forall i p, lowestConfigLevel (destroy i p) = lowestConfigLevel p)
  /\ (forall i proposed p x size rate bitrate,
        nth_error (instances p) i = Some x ->
        mProfileLevelKind x = WithH264Setter ->
        mInputVisibleSize x = Some size ->
        mFrameRate x = Some rate ->
        mBitrate x = Some bitrate ->
        exists p',
          let out := H264ProfileLevelSetter (mProfileLevelFields x) (lowestConfigLevel p)
                       proposed size rate bitrate in
          configProfileLevel i proposed p = Some (result out, p')
          /\ lowestConfigLevel p' = lowest_out out)
  /\ (forall i j proposed_i proposed_j p r p' xi si ri bi xj sj rj bj,
        i <> j ->
        nth_error (instances p) i = Some xi ->
        mProfileLevelKind xi = WithH264Setter ->
        mInputVisibleSize xi = Some si -> mFrameRate xi = Some ri ->
        mBitrate xi = Some bi ->
        nth_error (instances p) j = Some xj ->
        mProfileLevelKind xj = WithH264Setter ->
        mInputVisibleSize xj = Some sj -> mFrameRate xj = Some rj ->
        mBitrate xj = Some bj ->
        configProfileLevel i proposed_i p = Some (r, p') ->
        exists p'',
          let out_i := H264ProfileLevelSetter (mProfileLevelFields xi)
                         (lowestConfigLevel p) proposed_i si ri bi in
          let out_j := H264ProfileLevelSetter (mProfileLevelFields xj)
                         (lowest_out out_i) proposed_j sj rj bj in
          configProfileLevel j proposed_j p' = Some (result out_j, p'')).
Proof.
  assert (Hrun : forall i proposed p x size rate bitrate,
            nth_error (instances p) i = Some x ->
            mProfileLevelKind x = WithH264Setter ->
            mInputVisibleSize x = Some size ->
            mFrameRate x = Some rate ->
            mBitrate x = Some bitrate ->
            exists p',
              let out := H264ProfileLevelSetter (mProfileLevelFields x)
                           (lowestConfigLevel p) proposed size rate bitrate in
              configProfileLevel i proposed p = Some (result out, p')
              /\ lowestConfigLevel p' = lowest_out out).
  { intros i proposed p x size rate bitrate Hx Hk Hs Hr Hb.
    unfold configProfileLevel. rewrite Hx, Hk, Hs, Hr, Hb.
    eexists. cbn zeta. split; reflexivity. }
  split; [reflexivity |].
  split; [reflexivity |].
  split; [reflexivity |].
  split; [exact Hrun |].
  intros i j proposed_i proposed_j p r p' xi si ri bi xj sj rj bj
         Hne Hxi Hki Hsi Hri Hbi Hxj Hkj Hsj Hrj Hbj Hcfg.
  destruct (Hrun i proposed_i p xi si ri bi Hxi Hki Hsi Hri Hbi) as (q & Hq & Hlow).
  cbn zeta in Hq, Hlow. rewrite Hq in Hcfg. injection Hcfg as _ <-.
  pose proof (configProfileLevel_other i j proposed_i p q _ Hne Hq) as Hsame.
  rewrite Hxj in Hsame.
  destruct (Hrun j proposed_j q xj sj rj bj Hsame Hkj Hsj Hrj Hbj) as (q' & Hq' & _).
  cbn zeta in Hq'. rewrite Hlow in Hq'.
  exists q'. exact Hq'.
Qed.

Lemma lowestConfigLevel_process_wide_witness :
  exists p'',
    configProfileLevel 1 (mkProfileLevel PROFILE_AVC_BASELINE LEVEL_AVC_4_1)
      (mkProcess LEVEL_AVC_1
         [setProfileLevel (mkProfileLevel PROFILE_AVC_BASELINE LEVEL_AVC_1_3)
            (Initialize baselineDevice V4L2ComponentName.kH264Encoder);
          Initialize baselineDevice V4L2ComponentName.kH264Encoder])
    = Some (Ok, p'').
Proof.
  destruct (proj2 (proj2 (proj2 (proj2 lowestConfigLevel_process_wide))) 0%nat 1%nat
              (mkProfileLevel PROFILE_AVC_BASELINE LEVEL_AVC_1)
              (mkProfileLevel PROFILE_AVC_BASELINE LEVEL_AVC_4_1)
              twoInterfaces Ok
              (mkProcess LEVEL_AVC_1
                 [setProfileLevel (mkProfileLevel PROFILE_AVC_BASELINE LEVEL_AVC_1_3)
                    (Initialize baselineDevice V4L2ComponentName.kH264Encoder);
                  Initialize baselineDevice V4L2ComponentName.kH264Encoder])
              (Initialize baselineDevice V4L2ComponentName.kH264Encoder)
              (mkPictureSize 320 240) kDefaultFrameRate kDefaultBitrate
              (Initialize baselineDevice V4L2ComponentName.kH264Encoder)
              (mkPictureSize 320 240) kDefaultFrameRate kDefaultBitrate
              ltac:(discriminate) eq_refl eq_refl eq_refl eq_refl eq_refl
              eq_refl eq_refl eq_refl eq_refl eq_refl
              ltac:(vm_compute; reflexivity)) as (p'' & H).
  exists p''. exact H.
Defined.

(** ** The profile step of the two setters *)

Lemma compileProfiles_valid (codec : VideoCodec)
    (supported_profiles : list SupportedEncodeProfile) (p : profile_t) :
  supportsAtAll (compileProfiles codec supported_profiles) p = true ->
  IsValidProfileForCodec codec p = true.
Proof.
  intros H. apply supportsAtAll_In in H. unfold compileProfiles in H.
  apply in_map_iff in H as (sp & <- & Hsp).
  apply filter_In in Hsp as [_ Hv]. exact Hv.
Qed.



(** ** Initialize *)

(** C7, as stated, fails: an unrecognized component name and a device
    without any valid profile are different causes, and [Initialize] reports
    the same status for both. *)
Lemma invalid_codec_and_no_profiles_share_status :
  failureCause baselineDevice "c2.v4l2.unknown.encoder" = Some InvalidCodec
  /\ failureCause (Some []) V4L2ComponentName.kH264Encoder = Some NoSupportedProfiles
  /\ mInitStatus (Initialize baselineDevice "c2.v4l2.unknown.encoder")
     = mInitStatus (Initialize (Some []) V4L2ComponentName.kH264Encoder)
  /\ InvalidCodec <> NoSupportedProfiles.
Proof. repeat split; try reflexivity. discriminate. Qed.

Lemma compileProfiles_nil (codec : VideoCodec)
    (supported_profiles : list SupportedEncodeProfile) :
  compileProfiles codec supported_profiles = []
  <-> existsb (fun sp => IsValidProfileForCodec codec (sp_profile sp)) supported_profiles
      = false.
Proof.
  unfold compileProfiles.
  induction supported_profiles as [| sp rest IH]; cbn [filter map existsb].
  - tauto.
  - destruct (IsValidProfileForCodec codec (sp_profile sp)); cbn [map orb].
    + split; discriminate.
    + exact IH.
Qed.

(** C7, amended: [Initialize] leaves the status C2_CORRUPTED when the device
    could not be created, C2_BAD_VALUE both for an unrecognized component
    name and for a device without a valid profile for the codec (the status
    does not tell these two apart), and C2_OK otherwise.  In each failing
    case no parameter has been registered; on success the profile/level
    parameter is registered and defined. *)
Theorem Initialize_status (device : option (list SupportedEncodeProfile)) (name : string) :
  let x := Initialize device name in
  mInitStatus x
  = match failureCause device name with
    | None => C2_OK
    | Some DeviceUnavailable => C2_CORRUPTED
    | Some InvalidCodec | Some NoSupportedProfiles => C2_BAD_VALUE
    end
  /\ match failureCause device name with
     | Some _ => untouched x
     | None => In PROFILE_LEVEL (mParams x) /\ mProfileLevel x <> None
     end.
Proof.
  cbn zeta. unfold Initialize, failureCause.
  destruct device as [supported_profiles |];
    [| split; [reflexivity | repeat split]].
  destruct (getCodecFromComponentName name) as [codec |] eqn:Hc;
    [| split; [reflexivity | repeat split]].
  pose proof (compileProfiles_nil codec supported_profiles) as Hnil.
  destruct (compileProfiles codec supported_profiles) as [| p0 ps] eqn:Hp.
  - rewrite (proj1 Hnil eq_refl). split; [reflexivity | repeat split].
  - destruct (existsb _ supported_profiles);
      [| discriminate (proj2 Hnil eq_refl)].
    destruct codec; cbn [mInitStatus mParams mProfileLevel];
      (split; [reflexivity | split; [cbn; tauto | discriminate]]).
Qed.

Lemma Initialize_status_witness :
  mInitStatus (Initialize None V4L2ComponentName.kVP9Encoder) = C2_CORRUPTED
  /\ untouched (Initialize None V4L2ComponentName.kVP9Encoder).
Proof.
  exact (Initialize_status None V4L2ComponentName.kVP9Encoder).
Defined.

(** ** The intra-refresh setter *)

(** C8: the intra-refresh setter always returns Ok.  A requested period
    below 1 gives the disabled mode and period 0; any other requested period
    gives the arbitrary (cyclic) mode, whatever mode was requested, and keeps
    the period.  A requested period of 5 gives the arbitrary mode with
    period 5, a requested period of 0 the disabled mode with period 0. *)
Theorem IntraRefreshPeriodSetter_spec (requested : IntraRefresh) :
  fst (IntraRefreshPeriodSetter requested) = Ok
  /\ (F32.ltb (ir_period requested) (F32.of_Z 1) = true ->
      snd (IntraRefreshPeriodSetter requested)
      = mkIntraRefresh INTRA_REFRESH_DISABLED (S754_zero false))
  /\ (F32.ltb (ir_period requested) (F32.of_Z 1) = false ->
      snd (IntraRefreshPeriodSetter requested)
      = mkIntraRefresh INTRA_REFRESH_ARBITRARY (ir_period requested))
  /\ IntraRefreshPeriodSetter (mkIntraRefresh (ir_mode requested) (F32.of_Z 5))
     = (Ok, mkIntraRefresh INTRA_REFRESH_ARBITRARY (F32.of_Z 5))
  /\ IntraRefreshPeriodSetter (mkIntraRefresh (ir_mode requested) (F32.of_Z 0))
     = (Ok, mkIntraRefresh INTRA_REFRESH_DISABLED (F32.of_Z 0)).
Proof.
  unfold IntraRefreshPeriodSetter.
  repeat apply conj.
  - destruct (F32.ltb (ir_period requested) (F32.of_Z 1)); reflexivity.
  - intros ->. reflexivity.
  - intros ->. reflexivity.
  - reflexivity.
  - reflexivity.
Qed.

Lemma IntraRefreshPeriodSetter_spec_witness :
  snd (IntraRefreshPeriodSetter (mkIntraRefresh INTRA_REFRESH_DISABLED (F32.of_Z 7)))
  = mkIntraRefresh INTRA_REFRESH_ARBITRARY (F32.of_Z 7).
Proof.
  apply (proj1 (proj2 (proj2 (IntraRefreshPeriodSetter_spec
           (mkIntraRefresh INTRA_REFRESH_DISABLED (F32.of_Z 7)))))).
  vm_compute; reflexivity.
Defined.

(** ** The key-frame period in frames *)


Lemma clamp_integer (z : Z) :
  to_uint32 (std_max (std_min (IInt z) (IInt UINT32_MAX)) (IInt 1))
  = Some (Z.max 1 (Z.min UINT32_MAX z)).
Proof.
  unfold std_min, std_max, integral_lt.
  destruct (Z.ltb_spec UINT32_MAX z) as [H1 | H1].
  - change (UINT32_MAX <? 1) with false. cbn [to_uint32].
    change ((0 <=? UINT32_MAX) && (UINT32_MAX <=? UINT32_MAX)) with true.
    unfold UINT32_MAX in *. apply (f_equal Some). lia.
  - destruct (Z.ltb_spec z 1) as [H2 | H2]; cbn [to_uint32].
    + change ((0 <=? 1) && (1 <=? UINT32_MAX)) with true.
      unfold UINT32_MAX in *. apply (f_equal Some). lia.
    + destruct (Z.leb_spec 0 z); [| lia].
      destruct (Z.leb_spec z UINT32_MAX); [| lia].
      cbn [andb]. unfold UINT32_MAX in *. apply (f_equal Some). lia.
Qed.











(** * Further properties of the code *)

(** ** The target frame size *)

(** X1: for a width and a height that do not wrap when 15 is added, the
    target frame size is the product of the two dimensions rounded up to
    whole macroblocks; the macroblock grid covers the picture, and the
    product stays far below the range of [uint64_t].  A width within 15 of
    UINT32_MAX wraps in [uint32_t] and gives a frame size of 0. *)
Theorem targetFS_macroblocks (w h : Z) :
  (0 <= w <= UINT32_MAX - 15 -> 0 <= h <= UINT32_MAX - 15 ->
   targetFS (mkPictureSize w h) = ((w + 15) / 16) * ((h + 15) / 16)
   /\ w * h <= 256 * targetFS (mkPictureSize w h)
   /\ targetFS (mkPictureSize w h) < 2 ^ 56)
  /\ (UINT32_MAX - 15 < w <= UINT32_MAX ->
      targetFS (mkPictureSize w h) = 0).
Proof.
  unfold targetFS, u32, u64, UINT32_MAX. cbn [width height]. split.
  - intros Hw Hh.
    rewrite (Z.mod_small (w + 15)) by lia.
    rewrite (Z.mod_small (h + 15)) by lia.
    pose proof (Z.div_mod (w + 15) 16 ltac:(lia)) as Ew.
    pose proof (Z.mod_pos_bound (w + 15) 16 ltac:(lia)) as Bw.
    pose proof (Z.div_mod (h + 15) 16 ltac:(lia)) as Eh.
    pose proof (Z.mod_pos_bound (h + 15) 16 ltac:(lia)) as Bh.
    set (a := (w + 15) / 16) in *. set (b := (h + 15) / 16) in *.
    assert (Ha : 0 <= a < 2 ^ 28) by lia.
    assert (Hb : 0 <= b < 2 ^ 28) by lia.
    assert (Hab : 0 <= a * b < 2 ^ 56) by nia.
    rewrite Z.mod_small by lia.
    repeat split; nia.
  - intros Hw.
    replace (w + 15) with ((w + 15 - 2 ^ 32) + 1 * 2 ^ 32) by lia.
    rewrite Z.mod_add by lia.
    rewrite (Z.mod_small (w + 15 - 2 ^ 32)) by lia.
    rewrite (Z.div_small (w + 15 - 2 ^ 32) 16) by lia.
    reflexivity.
Qed.

Lemma targetFS_macroblocks_witness :
  targetFS (mkPictureSize 1920 1080) = ((1920 + 15) / 16) * ((1080 + 15) / 16)
  /\ 1920 * 1080 <= 256 * targetFS (mkPictureSize 1920 1080)
  /\ targetFS (mkPictureSize 1920 1080) < 2 ^ 56.
Proof.
  apply (proj1 (targetFS_macroblocks 1920 1080)); unfold UINT32_MAX; lia.
Defined.

(** ** What the H264 setter leaves behind *)

Lemma adoptProfile_supported (sup : FieldSupport) (minProfile : profile_t)
    (info info1 : ProfileLevel) :
  adoptProfile sup minProfile info = Some info1 ->
  supportsAtAll (profiles sup) (profile info1) = true /\ minProfile <= profile info1.
Proof.
  unfold adoptProfile.
  destruct (supportsAtAll (profiles sup) (profile info)) eqn:Hs; cbn [negb orb].
  - destruct (Z.ltb_spec (profile info) minProfile) as [Hlt | Hge].
    + destruct (supportsAtAll (profiles sup) minProfile) eqn:Hm; [| discriminate].
      intros [= <-]. cbn [profile]. split; [exact Hm | lia].
    + intros [= <-]. split; [exact Hs | exact Hge].
  - destruct (supportsAtAll (profiles sup) minProfile) eqn:Hm; [| discriminate].
    intros [= <-]. cbn [profile]. split; [exact Hm | lia].
Qed.

Lemma adoptProfile_keeps (sup : FieldSupport) (minProfile : profile_t)
    (info : ProfileLevel) :
  supportsAtAll (profiles sup) (profile info) = true ->
  minProfile <= profile info ->
  adoptProfile sup minProfile info = Some info.
Proof.
  intros Hs Hge. unfold adoptProfile. rewrite Hs. cbn [negb orb].
  destruct (Z.ltb_spec (profile info) minProfile); [lia | reflexivity].
Qed.

(** When the flag of the scan is up, the first candidate is not the level
    the scan started from. *)
Lemma flag_level_differs (sup : FieldSupport) (p : profile_t) (fs : Z)
    (mbps : F32.float) (bitrate : Z) (l : level_t) (r : LevelLimits) :
  firstFeasible sup p fs mbps bitrate kLimits = Some r ->
  negb (supportsAtAll (levels sup) l) || stale sup p fs mbps bitrate l kLimits = true ->
  ll_level r <> l.
Proof.
  intros Hf Hflag.
  destruct (firstFeasible_In sup p fs mbps bitrate kLimits r Hf) as (_ & Hsr & _).
  destruct (supportsAtAll (levels sup) l) eqn:Hs; cbn [negb orb] in Hflag.
  - pose proof (stale_lt sup p fs mbps bitrate l kLimits r kLimits_StronglySorted Hf Hflag).
    lia.
  - intros E. rewrite E in Hsr. congruence.
Qed.

(** X2: the setter writes the remembered level exactly when it accepts and
    replaces the level it started from (the proposed level, or the remembered
    one when that is set and lower); it then remembers that starting level.
    A rejected request and an accepted request whose level is kept leave the
    remembered level as it was. *)
Theorem lowestConfigLevel_update_rule
    (sup : FieldSupport) (lowest : level_t) (info : ProfileLevel)
    (videoSize : PictureSize) (frameRate : F32.float) (bitrate : Z) :
  let out := H264ProfileLevelSetter sup lowest info videoSize frameRate bitrate in
  let l := effectiveLevel lowest (level info) in
  lowest_out out
  = match result out with
    | Ok => if level (info_out out) =? l then lowest else l
    | BadValue _ => lowest
    end.
Proof.
  cbn zeta. rewrite H264ProfileLevelSetter_unfold.
  destruct (adoptProfile sup PROFILE_AVC_BASELINE info) as [info1 |] eqn:Ha;
    [| reflexivity].
  rewrite <- (adoptProfile_level _ _ _ _ Ha). cbn zeta.
  set (l := effectiveLevel lowest (level info1)).
  destruct (firstFeasible sup (profile info1) (targetFS videoSize)
              (targetMBPS videoSize frameRate) bitrate kLimits) as [r |] eqn:Hf;
    [| reflexivity].
  destruct (negb (supportsAtAll (levels sup) l)
            || stale sup (profile info1) (targetFS videoSize)
                 (targetMBPS videoSize frameRate) bitrate l kLimits) eqn:Hflag;
    cbn [result info_out lowest_out level].
  - pose proof (flag_level_differs _ _ _ _ _ _ _ Hf Hflag) as Hne.
    destruct (Z.eqb_spec (ll_level r) l); [contradiction | reflexivity].
  - rewrite Z.eqb_refl. reflexivity.
Qed.

(** X3: once a level is remembered, a call of the setter never raises it. *)
Theorem lowestConfigLevel_never_raised
    (sup : FieldSupport) (lowest : level_t) (info : ProfileLevel)
    (videoSize : PictureSize) (frameRate : F32.float) (bitrate : Z) :
  lowest <> LEVEL_UNUSED ->
  lowest_out (H264ProfileLevelSetter sup lowest info videoSize frameRate bitrate)
  <= lowest.
Proof.
  intros Hset. rewrite H264ProfileLevelSetter_unfold.
  destruct (adoptProfile sup PROFILE_AVC_BASELINE info) as [info1 |];
    [| cbn [lowest_out]; lia].
  cbn zeta.
  assert (Hl : effectiveLevel lowest (level info1) <= lowest).
  { unfold effectiveLevel.
    destruct (Z.eqb_spec lowest LEVEL_UNUSED) as [? | _]; [contradiction |].
    cbn [negb andb].
    destruct (Z.ltb_spec lowest (level info1)); lia. }
  destruct (firstFeasible sup (profile info1) (targetFS videoSize)
              (targetMBPS videoSize frameRate) bitrate kLimits);
    [destruct (negb _ || _) |]; cbn [lowest_out]; lia.
Qed.

Lemma lowestConfigLevel_never_raised_witness :
  lowest_out (H264ProfileLevelSetter scenario1_support LEVEL_AVC_3
                (mkProfileLevel PROFILE_AVC_BASELINE LEVEL_AVC_1)
                (mkPictureSize 320 240) (F32.of_Z 30) 64000)
  <= LEVEL_AVC_3.
Proof.
  apply (lowestConfigLevel_never_raised scenario1_support LEVEL_AVC_3
           (mkProfileLevel PROFILE_AVC_BASELINE LEVEL_AVC_1)
           (mkPictureSize 320 240) (F32.of_Z 30) 64000).
  vm_compute; discriminate.
Defined.

(** X4: a value the H264 setter accepts is made of supported parts: its
    profile is one of the supported profiles and not below the baseline
    profile, and its level is one of the supported levels. *)
Theorem H264_accepted_value_supported
    (sup : FieldSupport) (lowest : level_t) (info : ProfileLevel)
    (videoSize : PictureSize) (frameRate : F32.float) (bitrate : Z) :
  let out := H264ProfileLevelSetter sup lowest info videoSize frameRate bitrate in
  result out = Ok ->
  supportsAtAll (profiles sup) (profile (info_out out)) = true
  /\ PROFILE_AVC_BASELINE <= profile (info_out out)
  /\ supportsAtAll (levels sup) (level (info_out out)) = true.
Proof.
  cbn zeta. rewrite H264ProfileLevelSetter_unfold.
  destruct (adoptProfile sup PROFILE_AVC_BASELINE info) as [info1 |] eqn:Ha;
    [| cbn [result]; discriminate].
  destruct (adoptProfile_supported _ _ _ _ Ha) as [Hp Hge]. cbn zeta.
  set (l := effectiveLevel lowest (level info1)).
  destruct (firstFeasible sup (profile info1) (targetFS videoSize)
              (targetMBPS videoSize frameRate) bitrate kLimits) as [r |] eqn:Hf;
    [| cbn [result]; discriminate].
  destruct (firstFeasible_In _ _ _ _ _ _ _ Hf) as (_ & Hsr & _).
  destruct (supportsAtAll (levels sup) l) eqn:Hs; cbn [negb orb].
  - destruct (stale sup (profile info1) (targetFS videoSize)
                (targetMBPS videoSize frameRate) bitrate l kLimits);
      cbn [result info_out profile level]; intros _; auto.
  - cbn [result info_out profile level]. intros _. auto.
Qed.

Lemma H264_accepted_value_supported_witness :
  supportsAtAll (profiles scenario1_support) (profile (info_out scenario1)) = true
  /\ PROFILE_AVC_BASELINE <= profile (info_out scenario1)
  /\ supportsAtAll (levels scenario1_support) (level (info_out scenario1)) = true.
Proof.
  apply (H264_accepted_value_supported scenario1_support LEVEL_UNUSED
           (mkProfileLevel PROFILE_AVC_BASELINE LEVEL_AVC_4_1)
           (mkPictureSize 320 240) (F32.of_Z 30) 64000).
  vm_compute; reflexivity.
Defined.

(** X5: the setter rejects the level field exactly when the profile step
    passed and no supported row of the table covers the configuration. *)
Theorem H264_level_rejected_iff_infeasible
    (sup : FieldSupport) (lowest : level_t) (info : ProfileLevel)
    (videoSize : PictureSize) (frameRate : F32.float) (bitrate : Z) :
  let out := H264ProfileLevelSetter sup lowest info videoSize frameRate bitrate in
  result out = BadValue F_level
  <-> (result out <> BadValue F_profile
       /\ forall row : LevelLimits,
            In row kLimits ->
            supportsAtAll (levels sup) (ll_level row) = true ->
            meets (profile (info_out out)) (targetFS videoSize)
              (targetMBPS videoSize frameRate) bitrate row = false).
Proof.
  cbn zeta. rewrite H264ProfileLevelSetter_unfold.
  destruct (adoptProfile sup PROFILE_AVC_BASELINE info) as [info1 |].
  - cbn zeta. set (l := effectiveLevel lowest (level info1)).
    set (p := profile info1).
    set (fs := targetFS videoSize). set (mbps := targetMBPS videoSize frameRate).
    destruct (firstFeasible sup p fs mbps bitrate kLimits) as [r |] eqn:Hf.
    + destruct (firstFeasible_In _ _ _ _ _ _ _ Hf) as (Hin & Hsr & Hm).
      destruct (negb (supportsAtAll (levels sup) l) || stale sup p fs mbps bitrate l kLimits);
        cbn [result info_out profile]; (split; [discriminate |]);
        intros [_ Hnone]; rewrite (Hnone r Hin Hsr) in Hm; discriminate.
    + cbn [result info_out profile]. split; [| reflexivity].
      intros _. split; [discriminate |].
      intros row Hin Hs.
      pose proof (find_none _ _ Hf row Hin) as Hc.
      unfold candidate in Hc. rewrite Hs in Hc. exact Hc.
  - cbn [result]. split; [discriminate | intros [H _]; congruence].
Qed.

(** In a sorted table the first candidate is at or below any candidate. *)
Lemma firstFeasible_le (sup : FieldSupport) (p : profile_t) (fs : Z)
    (mbps : F32.float) (bitrate : Z) (rows : list LevelLimits) (row : LevelLimits) :
  StronglySorted rowStep rows ->
  In row rows ->
  candidate sup p fs mbps bitrate row = true ->
  exists r, firstFeasible sup p fs mbps bitrate rows = Some r
            /\ ll_level r <= ll_level row.
Proof.
  induction 1 as [| a rest Hs IH Hall]; intros Hin Hc; [destruct Hin |].
  cbn [firstFeasible find].
  destruct (candidate sup p fs mbps bitrate a) eqn:Ha.
  - exists a. split; [reflexivity |].
    destruct Hin as [-> | Hin]; [lia |].
    rewrite Forall_forall in Hall. destruct (Hall _ Hin) as [Hlt _]. lia.
  - destruct Hin as [-> | Hin]; [congruence |].
    exact (IH Hin Hc).
Qed.

Lemma restore_remembered
    (sup : FieldSupport) (lowest : level_t) (info : ProfileLevel)
    (videoSize : PictureSize) (frameRate : F32.float) (bitrate : Z)
    (row : LevelLimits) :
  let out := H264ProfileLevelSetter sup lowest info videoSize frameRate bitrate in
  supportsAtAll (profiles sup) (profile info) = true ->
  PROFILE_AVC_BASELINE <= profile info ->
  lowest <> LEVEL_UNUSED ->
  lowest < level info ->
  supportsAtAll (levels sup) lowest = true ->
  In row kLimits ->
  ll_level row = lowest ->
  meets (profile info) (targetFS videoSize) (targetMBPS videoSize frameRate)
    bitrate row = true ->
  out = mkOut Ok (mkProfileLevel (profile info) lowest) lowest.
Proof.
  cbn zeta. intros Hps Hge Hset Hlt Hsl Hin Hrow Hm.
  rewrite H264ProfileLevelSetter_unfold.
  rewrite (adoptProfile_keeps sup PROFILE_AVC_BASELINE info Hps Hge). cbn zeta.
  assert (El : effectiveLevel lowest (level info) = lowest).
  { unfold effectiveLevel.
    destruct (Z.eqb_spec lowest LEVEL_UNUSED) as [? | _]; [contradiction |].
    destruct (Z.ltb_spec lowest (level info)); [reflexivity | lia]. }
  rewrite El.
  set (p := profile info).
  set (fs := targetFS videoSize). set (mbps := targetMBPS videoSize frameRate).
  assert (Hc : candidate sup p fs mbps bitrate row = true).
  { unfold candidate. rewrite Hrow, Hsl. exact Hm. }
  destruct (firstFeasible_le sup p fs mbps bitrate kLimits row
              kLimits_StronglySorted Hin Hc) as (r & Hf & Hle).
  rewrite Hf, Hsl. cbn [negb orb].
  destruct (stale sup p fs mbps bitrate lowest kLimits) eqn:Hst; [| reflexivity].
  pose proof (stale_lt sup p fs mbps bitrate lowest kLimits r
                kLimits_StronglySorted Hf Hst).
  lia.
Qed.

(** X6: the remembered level does what the source keeps it for.  When a
    level is remembered, is supported and lower than the proposed level, and
    its row of the table covers the configuration, the setter accepts, puts
    the remembered level back in place of the proposed one and keeps
    remembering it. *)
Theorem remembered_level_restored
    (sup : FieldSupport) (lowest : level_t) (info : ProfileLevel)
    (videoSize : PictureSize) (frameRate : F32.float) (bitrate : Z)
    (row : LevelLimits) :
  let out := H264ProfileLevelSetter sup lowest info videoSize frameRate bitrate in
  supportsAtAll (profiles sup) (profile info) = true ->
  PROFILE_AVC_BASELINE <= profile info ->
  lowest <> LEVEL_UNUSED ->
  lowest < level info ->
  supportsAtAll (levels sup) lowest = true ->
  In row kLimits ->
  ll_level row = lowest ->
  meets (profile info) (targetFS videoSize) (targetMBPS videoSize frameRate)
    bitrate row = true ->
  out = mkOut Ok (mkProfileLevel (profile info) lowest) lowest.
Proof.
  exact (restore_remembered sup lowest info videoSize frameRate bitrate row).
Qed.

Lemma remembered_level_restored_witness :
  H264ProfileLevelSetter scenario1_support LEVEL_AVC_1
    (mkProfileLevel PROFILE_AVC_BASELINE LEVEL_AVC_1_3)
    (mkPictureSize 176 144) (F32.of_Z 15) 64000
  = mkOut Ok (mkProfileLevel PROFILE_AVC_BASELINE LEVEL_AVC_1) LEVEL_AVC_1.
Proof.
  apply (remembered_level_restored scenario1_support LEVEL_AVC_1
           (mkProfileLevel PROFILE_AVC_BASELINE LEVEL_AVC_1_3)
           (mkPictureSize 176 144) (F32.of_Z 15) 64000
           (limits LEVEL_AVC_1 1485 99 64000)).
  - vm_compute; reflexivity.
  - vm_compute; discriminate.
  - vm_compute; discriminate.
  - vm_compute; reflexivity.
  - vm_compute; reflexivity.
  - vm_compute; tauto.
  - reflexivity.
  - vm_compute; reflexivity.
Defined.

(** The largest limits of the table. *)
Definition withinTopRowb (r : LevelLimits) : bool :=
  (maxFS r <=? 36864) && F32.leb (maxMBPS r) (F32.of_Z 2073600)
  && (0 <=? maxBR r) && (maxBR r <=? 240000000).

Lemma kLimits_withinTopRow (r : LevelLimits) :
  In r kLimits ->
  maxFS r <= 36864 /\ F32.leb (maxMBPS r) (F32.of_Z 2073600) = true
  /\ 0 <= maxBR r <= 240000000.
Proof.
  intros Hin.
  assert (Hall : forallb withinTopRowb kLimits = true) by (vm_compute; reflexivity).
  rewrite forallb_forall in Hall. specialize (Hall r Hin).
  unfold withinTopRowb in Hall. rewrite !andb_true_iff, !Z.leb_le in Hall. tauto.
Qed.

(** X7: whatever levels are supported and whatever is proposed or
    remembered, the setter accepts no configuration beyond the last row of
    the table: more than 36864 macroblocks per frame, more than 2073600
    macroblocks per second, or more than four times 240000000 bits per
    second. *)
Theorem H264_accepts_within_table
    (sup : FieldSupport) (lowest : level_t) (info : ProfileLevel)
    (videoSize : PictureSize) (frameRate : F32.float) (bitrate : Z) :
  result (H264ProfileLevelSetter sup lowest info videoSize frameRate bitrate) = Ok ->
  targetFS videoSize <= 36864
  /\ F32.leb (targetMBPS videoSize frameRate) (F32.of_Z 2073600) = true
  /\ bitrate <= 960000000.
Proof.
  rewrite H264ProfileLevelSetter_unfold.
  destruct (adoptProfile sup PROFILE_AVC_BASELINE info) as [info1 |];
    [| cbn [result]; discriminate].
  cbn zeta. set (l := effectiveLevel lowest (level info1)).
  set (p := profile info1).
  set (fs := targetFS videoSize). set (mbps := targetMBPS videoSize frameRate).
  destruct (firstFeasible sup p fs mbps bitrate kLimits) as [r |] eqn:Hf;
    [| cbn [result]; discriminate].
  intros _.
  destruct (firstFeasible_In _ _ _ _ _ _ _ Hf) as (Hin & _ & Hm).
  destruct (kLimits_withinTopRow r Hin) as (Hfs & Hmb & Hbr).
  unfold meets in Hm. rewrite !andb_true_iff, !Z.leb_le in Hm.
  destruct Hm as [[H1 H2] H3].
  split; [lia |]. split; [exact (SFleb_trans _ _ _ H2 Hmb) |].
  pose proof (profileMaxBR_exact p r Hin) as E.
  unfold profileMultiplier in E.
  destruct (PROFILE_AVC_HIGH_422 <=? p); [cbn [fst snd] in E; lia |].
  destruct (PROFILE_AVC_HIGH_10 <=? p); [cbn [fst snd] in E; lia |].
  destruct (PROFILE_AVC_HIGH <=? p); cbn [fst snd] in E; lia.
Qed.

Lemma H264_accepts_within_table_witness :
  targetFS (mkPictureSize 320 240) <= 36864
  /\ F32.leb (targetMBPS (mkPictureSize 320 240) (F32.of_Z 30)) (F32.of_Z 2073600) = true
  /\ 64000 <= 960000000.
Proof.
  apply (H264_accepts_within_table scenario1_support LEVEL_UNUSED
           (mkProfileLevel PROFILE_AVC_BASELINE LEVEL_AVC_4_1)
           (mkPictureSize 320 240) (F32.of_Z 30) 64000).
  vm_compute; reflexivity.
Defined.

(** ** The profile tier and the resolved level *)

Lemma profileMaxBR_profile_mono (p1 p2 : profile_t) (r : LevelLimits) :
  In r kLimits -> p1 <= p2 ->
  profileMaxBR p1 (maxBR r) <= profileMaxBR p2 (maxBR r).
Proof.
  intros Hin Hle.
  pose proof (profileMaxBR_exact p1 r Hin) as E1.
  pose proof (profileMaxBR_exact p2 r Hin) as E2.
  destruct (kLimits_withinTopRow r Hin) as (_ & _ & Hbr).
  unfold profileMultiplier in E1, E2.
  destruct (Z.leb_spec PROFILE_AVC_HIGH_422 p1), (Z.leb_spec PROFILE_AVC_HIGH_422 p2),
           (Z.leb_spec PROFILE_AVC_HIGH_10 p1), (Z.leb_spec PROFILE_AVC_HIGH_10 p2),
           (Z.leb_spec PROFILE_AVC_HIGH p1), (Z.leb_spec PROFILE_AVC_HIGH p2);
    cbn [fst snd] in E1, E2;
    unfold PROFILE_AVC_HIGH_422, PROFILE_AVC_HIGH_10, PROFILE_AVC_HIGH, PL_AVC_BASE in *;
    lia.
Qed.

Lemma meets_profile_mono (p1 p2 : profile_t) (fs : Z) (mbps : F32.float) (bitrate : Z)
    (r : LevelLimits) :
  In r kLimits -> p1 <= p2 ->
  meets p1 fs mbps bitrate r = true -> meets p2 fs mbps bitrate r = true.
Proof.
  intros Hin Hle. unfold meets. rewrite !andb_true_iff, !Z.leb_le.
  pose proof (profileMaxBR_profile_mono p1 p2 r Hin Hle). intuition lia.
Qed.

(** Raising the profile moves the first candidate down the table and can
    only lower the flag. *)
Lemma firstFeasible_profile_mono (sup : FieldSupport) (p1 p2 : profile_t) (fs : Z)
    (mbps : F32.float) (bitrate : Z) (l : level_t) (rows : list LevelLimits)
    (r1 : LevelLimits) :
  p1 <= p2 ->
  StronglySorted rowStep rows ->
  Forall (fun r => In r kLimits) rows ->
  firstFeasible sup p1 fs mbps bitrate rows = Some r1 ->
  exists r2, firstFeasible sup p2 fs mbps bitrate rows = Some r2
             /\ ll_level r2 <= ll_level r1
             /\ (stale sup p2 fs mbps bitrate l rows = true ->
                 stale sup p1 fs mbps bitrate l rows = true).
Proof.
  intros Hp. induction 1 as [| a rest Hs IH Hall]; intros Htab Hf; [discriminate |].
  apply Forall_cons_iff in Htab as [Ha Htab].
  cbn [firstFeasible find stale] in Hf |- *. unfold candidate at 1 in Hf.
  unfold candidate at 1.
  destruct (supportsAtAll (levels sup) (ll_level a)); cbn [negb andb] in *.
  - destruct (meets p1 fs mbps bitrate a) eqn:H1.
    + injection Hf as <-. rewrite (meets_profile_mono p1 p2 _ _ _ a Ha Hp H1).
      exists a. repeat split; [lia | auto].
    + destruct (meets p2 fs mbps bitrate a) eqn:H2.
      * exists a. repeat split; [| discriminate].
        apply firstFeasible_In in Hf as [Hin _].
        rewrite Forall_forall in Hall. destruct (Hall _ Hin) as [Hlt _]. lia.
      * destruct (IH Htab Hf) as (r2 & Hr2 & Hle & Hst).
        exists r2. repeat split; [exact Hr2 | exact Hle |].
        rewrite !orb_true_iff. intuition.
  - exact (IH Htab Hf).
Qed.

Lemma kLimits_Forall_In : Forall (fun r => In r kLimits) kLimits.
Proof. apply Forall_forall. auto. Qed.

(** X8: a higher profile never needs a higher level.  For two supported
    profiles at or above the baseline, with the same remembered level,
    proposed level, size, frame rate and bitrate, if the setter accepts with
    the lower profile it accepts with the higher one and leaves a level that
    is not higher. *)
Theorem H264_level_antitone_in_profile
    (sup : FieldSupport) (lowest : level_t) (proposed : level_t) (p1 p2 : profile_t)
    (videoSize : PictureSize) (frameRate : F32.float) (bitrate : Z) :
  let out1 := H264ProfileLevelSetter sup lowest (mkProfileLevel p1 proposed)
                videoSize frameRate bitrate in
  let out2 := H264ProfileLevelSetter sup lowest (mkProfileLevel p2 proposed)
                videoSize frameRate bitrate in
  supportsAtAll (profiles sup) p1 = true ->
  supportsAtAll (profiles sup) p2 = true ->
  PROFILE_AVC_BASELINE <= p1 -> p1 <= p2 ->
  result out1 = Ok ->
  result out2 = Ok /\ level (info_out out2) <= level (info_out out1).
Proof.
  cbn zeta. intros Hs1 Hs2 Hb Hle.
  rewrite !H264ProfileLevelSetter_unfold.
  rewrite (adoptProfile_keeps sup PROFILE_AVC_BASELINE (mkProfileLevel p1 proposed) Hs1 Hb).
  rewrite (adoptProfile_keeps sup PROFILE_AVC_BASELINE (mkProfileLevel p2 proposed) Hs2
             ltac:(cbn [profile]; lia)).
  cbn zeta. cbn [profile level]. set (l := effectiveLevel lowest proposed).
  set (fs := targetFS videoSize). set (mbps := targetMBPS videoSize frameRate).
  destruct (firstFeasible sup p1 fs mbps bitrate kLimits) as [r1 |] eqn:Hf1;
    [| cbn [result]; discriminate].
  destruct (firstFeasible_profile_mono sup p1 p2 fs mbps bitrate l kLimits r1 Hle
              kLimits_StronglySorted kLimits_Forall_In Hf1) as (r2 & Hf2 & Hlv & Hst).
  rewrite Hf2. intros _.
  destruct (supportsAtAll (levels sup) l) eqn:Hsl; cbn [negb orb].
  - destruct (stale sup p2 fs mbps bitrate l kLimits) eqn:Hst2.
    + rewrite (Hst eq_refl). cbn [result info_out level]. auto.
    + destruct (stale sup p1 fs mbps bitrate l kLimits) eqn:Hst1;
        cbn [result info_out level]; [| split; [reflexivity | lia]].
      pose proof (stale_lt sup p1 fs mbps bitrate l kLimits r1
                    kLimits_StronglySorted Hf1 Hst1).
      split; [reflexivity | lia].
  - cbn [result info_out level]. auto.
Qed.

Lemma H264_level_antitone_in_profile_witness :
  let sup := mkFieldSupport [PROFILE_AVC_BASELINE; PROFILE_AVC_HIGH] h264Levels in
  let out1 := H264ProfileLevelSetter sup LEVEL_UNUSED
                (mkProfileLevel PROFILE_AVC_BASELINE LEVEL_AVC_1)
                (mkPictureSize 320 240) (F32.of_Z 30) 900000 in
  let out2 := H264ProfileLevelSetter sup LEVEL_UNUSED
                (mkProfileLevel PROFILE_AVC_HIGH LEVEL_AVC_1)
                (mkPictureSize 320 240) (F32.of_Z 30) 900000 in
  result out2 = Ok /\ level (info_out out2) <= level (info_out out1).
Proof.
  cbn zeta.
  apply (H264_level_antitone_in_profile
           (mkFieldSupport [PROFILE_AVC_BASELINE; PROFILE_AVC_HIGH] h264Levels)
           LEVEL_UNUSED LEVEL_AVC_1 PROFILE_AVC_BASELINE PROFILE_AVC_HIGH
           (mkPictureSize 320 240) (F32.of_Z 30) 900000).
  - vm_compute; reflexivity.
  - vm_compute; reflexivity.
  - vm_compute; discriminate.
  - vm_compute; discriminate.
  - vm_compute; reflexivity.
Defined.

(** ** What Initialize sets up *)

(** [a] stands before [b] in [l]. *)
Definition precedes {A : Type} (a b : A) (l : list A) : Prop :=
  exists l1 l2 l3, l = l1 ++ a :: l2 ++ b :: l3.

(** The keys a successful [Initialize] registers, in order. *)
Definition allParams : list ParamKey :=
  [COMPONENT_KIND; PICTURE_SIZE; FRAME_RATE; BITRATE; BITRATE_MODE; PROFILE_LEVEL;
   INPUT_STREAM_BUFFER_TYPE; INPUT_STREAM_USAGE; OUTPUT_STREAM_BUFFER_TYPE;
   INPUT_MEDIA_TYPE; OUTPUT_MEDIA_TYPE; INTRA_REFRESH; REQUEST_SYNC_FRAME;
   SYNC_FRAME_INTERVAL; INPUT_ALLOCATORS; OUTPUT_ALLOCATORS; OUTPUT_BLOCK_POOLS].

Lemma fold_left_min_spec (rest : list Z) (x : Z) :
  In (fold_left Z.min rest x) (x :: rest)
  /\ forall y, In y (x :: rest) -> fold_left Z.min rest x <= y.
Proof.
  revert x. induction rest as [| z rest IH]; intros x; cbn [fold_left].
  - split; [now left |]. intros y [<- | []]. lia.
  - destruct (IH (Z.min x z)) as [Hin Hle]. split.
    + destruct Hin as [E | Hin].
      * rewrite <- E. destruct (Z.min_spec x z) as [[_ ->] | [_ ->]];
          [now left | right; now left].
      * right; right; exact Hin.
    + intros y Hy.
      assert (Hm : fold_left Z.min rest (Z.min x z) <= Z.min x z)
        by (apply Hle; now left).
      destruct Hy as [<- | [<- | Hy]]; [lia | lia |].
      apply Hle. now right.
Qed.

Lemma min_element_spec (x : Z) (rest : list Z) :
  In (min_element (x :: rest)) (x :: rest)
  /\ forall y, In y (x :: rest) -> min_element (x :: rest) <= y.
Proof. exact (fold_left_min_spec rest x). Qed.

(** What [Initialize] leaves for an H264 or a VP9 component once the device
    and the name are accepted. *)
Lemma Initialize_with_setter (device : option (list SupportedEncodeProfile))
    (name : string) :
  mInitStatus (Initialize device name) = C2_OK ->
  mProfileLevelKind (Initialize device name) <> ConstValue ->
  exists supported_profiles codec p0 ps lvls lvl kind,
    device = Some supported_profiles
    /\ getCodecFromComponentName name = Some codec
    /\ compileProfiles codec supported_profiles = p0 :: ps
    /\ ((codec = H264 /\ lvls = h264Levels /\ lvl = LEVEL_AVC_4_1
         /\ kind = WithH264Setter)
        \/ (codec = VP9 /\ lvls = vp9Levels /\ lvl = LEVEL_VP9_1
            /\ kind = WithVP9Setter))
    /\ Initialize device name
       = mkInterface C2_OK allParams (Some (mkPictureSize 320 240))
           (Some kDefaultFrameRate) (Some kDefaultBitrate)
           (Some (mkProfileLevel (min_element (p0 :: ps)) lvl)) kind
           (mkFieldSupport (p0 :: ps) lvls)
           (Some (mkIntraRefresh INTRA_REFRESH_DISABLED (F32.of_Z 0)))
           (Some 1000000).
Proof.
  unfold Initialize.
  destruct device as [supported_profiles |]; [| discriminate].
  destruct (getCodecFromComponentName name) as [codec |] eqn:Hc; [| discriminate].
  destruct (compileProfiles codec supported_profiles) as [| p0 ps] eqn:Hp;
    [discriminate |].
  intros _ Hk.
  destruct codec; [| cbn [mProfileLevelKind] in Hk; congruence |].
  - exists supported_profiles, H264, p0, ps, h264Levels, LEVEL_AVC_4_1, WithH264Setter.
    repeat split; auto.
  - exists supported_profiles, VP9, p0, ps, vp9Levels, LEVEL_VP9_1, WithVP9Setter.
    repeat split; auto.
Qed.

(** X10: the default value of the profile/level parameter of an H264 or VP9
    interface is a supported one: its profile is the least of the supported
    profiles and is valid for the codec of the component name, and its level
    is one of the supported levels. *)
Theorem Initialize_default_profile_level
    (device : option (list SupportedEncodeProfile)) (name : string) :
  let x := Initialize device name in
  mInitStatus x = C2_OK ->
  mProfileLevelKind x <> ConstValue ->
  exists (pl : ProfileLevel) (codec : VideoCodec),
    mProfileLevel x = Some pl
    /\ getCodecFromComponentName name = Some codec
    /\ supportsAtAll (profiles (mProfileLevelFields x)) (profile pl) = true
    /\ IsValidProfileForCodec codec (profile pl) = true
    /\ (forall q, supportsAtAll (profiles (mProfileLevelFields x)) q = true ->
                  profile pl <= q)
    /\ supportsAtAll (levels (mProfileLevelFields x)) (level pl) = true.
Proof.
  cbn zeta. intros Hok Hk.
  destruct (Initialize_with_setter device name Hok Hk)
    as (sps & codec & p0 & ps & lvls & lvl & kind & _ & Hc & Hp & Hcases & ->).
  exists (mkProfileLevel (min_element (p0 :: ps)) lvl), codec.
  cbn [mProfileLevel mProfileLevelFields profiles levels profile level].
  destruct (min_element_spec p0 ps) as [Hin Hmin].
  assert (Hsup : supportsAtAll (p0 :: ps) (min_element (p0 :: ps)) = true)
    by (apply supportsAtAll_In; exact Hin).
  repeat split; auto.
  - apply (compileProfiles_valid codec sps). rewrite Hp. exact Hsup.
  - intros q Hq. apply Hmin. apply supportsAtAll_In. exact Hq.
  - destruct Hcases as [(_ & -> & -> & _) | (_ & -> & -> & _)]; reflexivity.
Qed.

Lemma Initialize_default_profile_level_witness :
  exists (pl : ProfileLevel) (codec : VideoCodec),
    mProfileLevel (Initialize baselineDevice V4L2ComponentName.kH264Encoder) = Some pl
    /\ getCodecFromComponentName V4L2ComponentName.kH264Encoder = Some codec
    /\ supportsAtAll
         (profiles (mProfileLevelFields
                      (Initialize baselineDevice V4L2ComponentName.kH264Encoder)))
         (profile pl) = true
    /\ IsValidProfileForCodec codec (profile pl) = true
    /\ (forall q,
          supportsAtAll
            (profiles (mProfileLevelFields
                         (Initialize baselineDevice V4L2ComponentName.kH264Encoder)))
            q = true ->
          profile pl <= q)
    /\ supportsAtAll
         (levels (mProfileLevelFields
                    (Initialize baselineDevice V4L2ComponentName.kH264Encoder)))
         (level pl) = true.
Proof.
  apply (Initialize_default_profile_level baselineDevice
           V4L2ComponentName.kH264Encoder).
  - vm_compute; reflexivity.
  - vm_compute; discriminate.
Defined.

Lemma Initialize_success_params (device : option (list SupportedEncodeProfile))
    (name : string) :
  mInitStatus (Initialize device name) = C2_OK ->
  mParams (Initialize device name) = allParams.
Proof.
  unfold Initialize.
  destruct device as [supported_profiles |]; [| discriminate].
  destruct (getCodecFromComponentName name) as [codec |]; [| discriminate].
  destruct (compileProfiles codec supported_profiles); [discriminate |].
  destruct codec; reflexivity.
Qed.

(** X11: a successful [Initialize] registers seventeen parameters, each
    once, and the three parameters the profile/level setter depends on
    (picture size, frame rate, bitrate) before the profile/level parameter,
    as the note on the order of [addParameter] requires. *)
Theorem Initialize_parameter_order
    (device : option (list SupportedEncodeProfile)) (name : string) :
  let registered := mParams (Initialize device name) in
  mInitStatus (Initialize device name) = C2_OK ->
  NoDup registered
  /\ List.length registered = 17%nat
  /\ precedes PICTURE_SIZE PROFILE_LEVEL registered
  /\ precedes FRAME_RATE PROFILE_LEVEL registered
  /\ precedes BITRATE PROFILE_LEVEL registered.
Proof.
  cbn zeta. intros Hok. rewrite (Initialize_success_params device name Hok).
  split; [| split; [reflexivity | split; [| split]]].
  - unfold allParams.
    repeat (constructor; [cbn [In]; intuition discriminate |]). constructor.
  - exists [COMPONENT_KIND], [FRAME_RATE; BITRATE; BITRATE_MODE]. eexists. reflexivity.
  - exists [COMPONENT_KIND; PICTURE_SIZE], [BITRATE; BITRATE_MODE]. eexists. reflexivity.
  - exists [COMPONENT_KIND; PICTURE_SIZE; FRAME_RATE], [BITRATE_MODE]. eexists.
    reflexivity.
Qed.

Lemma Initialize_parameter_order_witness :
  let registered :=
    mParams (Initialize baselineDevice V4L2ComponentName.kH264Encoder) in
  NoDup registered
  /\ List.length registered = 17%nat
  /\ precedes PICTURE_SIZE PROFILE_LEVEL registered
  /\ precedes FRAME_RATE PROFILE_LEVEL registered
  /\ precedes BITRATE PROFILE_LEVEL registered.
Proof.
  cbn zeta.
  apply (Initialize_parameter_order baselineDevice V4L2ComponentName.kH264Encoder).
  vm_compute; reflexivity.
Defined.

(** At the default bitrate the bitrate test passes on every row of the
    table, whatever the profile. *)
Lemma meets_default_bitrate (p : profile_t) (fs : Z) (mbps : F32.float)
    (r : LevelLimits) :
  In r kLimits ->
  meets p fs mbps kDefaultBitrate r
  = meets PROFILE_AVC_BASELINE fs mbps kDefaultBitrate r.
Proof.
  intros Hin.
  assert (Hall : forallb (fun r => kDefaultBitrate <=? maxBR r) kLimits = true)
    by (vm_compute; reflexivity).
  rewrite forallb_forall in Hall. specialize (Hall r Hin). apply Z.leb_le in Hall.
  pose proof (profileMaxBR_exact p r Hin) as Ep.
  assert (Hp : kDefaultBitrate <= profileMaxBR p (maxBR r)).
  { unfold profileMultiplier in Ep. unfold kDefaultBitrate in *.
    destruct (PROFILE_AVC_HIGH_422 <=? p); [cbn [fst snd] in Ep; lia |].
    destruct (PROFILE_AVC_HIGH_10 <=? p); [cbn [fst snd] in Ep; lia |].
    destruct (PROFILE_AVC_HIGH <=? p); cbn [fst snd] in Ep; lia. }
  assert (Hb : kDefaultBitrate <= profileMaxBR PROFILE_AVC_BASELINE (maxBR r))
    by (change (profileMaxBR PROFILE_AVC_BASELINE (maxBR r)) with (maxBR r); exact Hall).
  unfold meets.
  apply Z.leb_le in Hp. apply Z.leb_le in Hb. rewrite Hp, Hb. reflexivity.
Qed.

Lemma scan_ext (sup : FieldSupport) (p p' : profile_t) (fs : Z) (mbps : F32.float)
    (bitrate : Z) (l : level_t) (rows : list LevelLimits) :
  Forall (fun r => meets p fs mbps bitrate r = meets p' fs mbps bitrate r) rows ->
  firstFeasible sup p fs mbps bitrate rows = firstFeasible sup p' fs mbps bitrate rows
  /\ stale sup p fs mbps bitrate l rows = stale sup p' fs mbps bitrate l rows.
Proof.
  induction 1 as [| a rest Ha _ [IH1 IH2]]; [split; reflexivity |].
  cbn [firstFeasible find stale]. unfold candidate at 1 3. rewrite Ha.
  fold (firstFeasible sup p fs mbps bitrate rest).
  fold (firstFeasible sup p' fs mbps bitrate rest).
  rewrite IH1, IH2. split; reflexivity.
Qed.

(** X9: the defaults [Initialize] gives an H264 interface agree with its
    setter: with nothing remembered, the setter accepts the default
    profile/level value at the default size, frame rate and bitrate, leaves
    it unchanged and remembers nothing, whatever profiles the device
    reports. *)
Theorem Initialize_defaults_accepted
    (device : option (list SupportedEncodeProfile)) (name : string) :
  let x := Initialize device name in
  mProfileLevelKind x = WithH264Setter ->
  exists pl size rate bitrate,
    mProfileLevel x = Some pl
    /\ mInputVisibleSize x = Some size
    /\ mFrameRate x = Some rate
    /\ mBitrate x = Some bitrate
    /\ H264ProfileLevelSetter (mProfileLevelFields x) LEVEL_UNUSED pl size rate bitrate
       = mkOut Ok pl LEVEL_UNUSED.
Proof.
  cbn zeta. intros Hk.
  assert (Hok : mInitStatus (Initialize device name) = C2_OK).
  { revert Hk. unfold Initialize.
    destruct device as [sps |]; [| discriminate].
    destruct (getCodecFromComponentName name) as [codec |]; [| discriminate].
    destruct (compileProfiles codec sps); [discriminate |].
    destruct codec; cbn [mProfileLevelKind mInitStatus]; congruence. }
  destruct (Initialize_with_setter device name Hok ltac:(congruence))
    as (sps & codec & p0 & ps & lvls & lvl & kind & _ & Hc & Hp & Hcases & E).
  rewrite E in Hk |- *. cbn [mProfileLevelKind] in Hk.
  destruct Hcases as [(-> & -> & -> & _) | (_ & _ & _ & ->)]; [| discriminate].
  cbn [mProfileLevel mInputVisibleSize mFrameRate mBitrate mProfileLevelFields].
  do 4 eexists. repeat (split; [reflexivity |]).
  set (p := min_element (p0 :: ps)).
  destruct (min_element_spec p0 ps) as [Hin _]. fold p in Hin.
  assert (Hsup : supportsAtAll (p0 :: ps) p = true) by (apply supportsAtAll_In; exact Hin).
  assert (Hval : IsValidProfileForCodec H264 p = true)
    by (apply (compileProfiles_valid H264 sps); rewrite Hp; exact Hsup).
  cbn [IsValidProfileForCodec] in Hval. apply andb_true_iff in Hval as [Hlo _].
  apply Z.leb_le in Hlo.
  rewrite H264ProfileLevelSetter_unfold.
  rewrite (adoptProfile_keeps (mkFieldSupport (p0 :: ps) h264Levels)
             PROFILE_AVC_BASELINE (mkProfileLevel p LEVEL_AVC_4_1) Hsup Hlo).
  cbn zeta. cbn [profile level].
  change (effectiveLevel LEVEL_UNUSED LEVEL_AVC_4_1) with LEVEL_AVC_4_1.
  set (sup := mkFieldSupport (p0 :: ps) h264Levels).
  set (fs := targetFS (mkPictureSize 320 240)).
  set (mbps := targetMBPS (mkPictureSize 320 240) kDefaultFrameRate).
  assert (Hext : Forall (fun r => meets p fs mbps kDefaultBitrate r
                                  = meets PROFILE_AVC_BASELINE fs mbps kDefaultBitrate r)
                   kLimits).
  { apply Forall_forall. intros r Hr. apply meets_default_bitrate. exact Hr. }
  destruct (scan_ext sup p PROFILE_AVC_BASELINE fs mbps kDefaultBitrate LEVEL_AVC_4_1
              kLimits Hext) as [-> ->].
  assert (Ef : firstFeasible sup PROFILE_AVC_BASELINE fs mbps kDefaultBitrate kLimits
               = Some (limits LEVEL_AVC_1_3 11880 396 768000))
    by (vm_compute; reflexivity).
  assert (Es : stale sup PROFILE_AVC_BASELINE fs mbps kDefaultBitrate LEVEL_AVC_4_1 kLimits
               = false)
    by (vm_compute; reflexivity).
  assert (El : supportsAtAll (levels sup) LEVEL_AVC_4_1 = true)
    by (vm_compute; reflexivity).
  rewrite Ef, Es, El. reflexivity.
Qed.

Lemma Initialize_defaults_accepted_witness :
  exists pl size rate bitrate,
    mProfileLevel (Initialize baselineDevice V4L2ComponentName.kH264Encoder) = Some pl
    /\ mInputVisibleSize (Initialize baselineDevice V4L2ComponentName.kH264Encoder)
       = Some size
    /\ mFrameRate (Initialize baselineDevice V4L2ComponentName.kH264Encoder) = Some rate
    /\ mBitrate (Initialize baselineDevice V4L2ComponentName.kH264Encoder) = Some bitrate
    /\ H264ProfileLevelSetter
         (mProfileLevelFields (Initialize baselineDevice V4L2ComponentName.kH264Encoder))
         LEVEL_UNUSED pl size rate bitrate
       = mkOut Ok pl LEVEL_UNUSED.
Proof.
  apply (Initialize_defaults_accepted baselineDevice V4L2ComponentName.kH264Encoder).
  vm_compute; reflexivity.
Defined.

(** ** The VP9 setter *)

Lemma VP9ProfileLevelSetter_unfold (sup : FieldSupport) (info : ProfileLevel) :
  VP9ProfileLevelSetter sup info
  = match adoptProfile sup PROFILE_VP9_0 info with
    | Some info1 => (Ok, info1)
    | None => (BadValue F_profile, info)
    end.
Proof.
  unfold VP9ProfileLevelSetter, adoptProfile.
  destruct (negb (supportsAtAll (profiles sup) (profile info))
            || (profile info <? PROFILE_VP9_0));
    [destruct (supportsAtAll (profiles sup) PROFILE_VP9_0) |]; reflexivity.
Qed.

(** X12: the VP9 setter never looks at the level: it leaves the proposed
    level in place, supported or not.  A value it accepts has a supported
    profile at or above VP9 profile 0 and is accepted again unchanged; a
    value it rejects is handed back as it was. *)
Theorem VP9ProfileLevelSetter_properties (sup : FieldSupport) (info : ProfileLevel) :
  let out := VP9ProfileLevelSetter sup info in
  level (snd out) = level info
  /\ (fst out = Ok ->
      supportsAtAll (profiles sup) (profile (snd out)) = true
      /\ PROFILE_VP9_0 <= profile (snd out)
      /\ VP9ProfileLevelSetter sup (snd out) = (Ok, snd out))
  /\ (fst out <> Ok -> snd out = info).
Proof.
  cbn zeta. rewrite (VP9ProfileLevelSetter_unfold sup info).
  destruct (adoptProfile sup PROFILE_VP9_0 info) as [info1 |] eqn:Ha; cbn [fst snd].
  - destruct (adoptProfile_supported _ _ _ _ Ha) as [Hs Hge].
    split; [exact (adoptProfile_level _ _ _ _ Ha) |].
    split; [| congruence].
    intros _. split; [exact Hs |]. split; [exact Hge |].
    rewrite VP9ProfileLevelSetter_unfold.
    rewrite (adoptProfile_keeps sup PROFILE_VP9_0 info1 Hs Hge). reflexivity.
  - split; [reflexivity |]. split; [discriminate | reflexivity].
Qed.

Lemma VP9ProfileLevelSetter_properties_witness :
  let sup := mkFieldSupport [PROFILE_VP9_0] vp9Levels in
  let out := VP9ProfileLevelSetter sup (mkProfileLevel PROFILE_VP9_3 LEVEL_AVC_1) in
  supportsAtAll (profiles sup) (profile (snd out)) = true
  /\ PROFILE_VP9_0 <= profile (snd out)
  /\ VP9ProfileLevelSetter sup (snd out) = (Ok, snd out).
Proof.
  cbn zeta.
  apply (proj1 (proj2 (VP9ProfileLevelSetter_properties
           (mkFieldSupport [PROFILE_VP9_0] vp9Levels)
           (mkProfileLevel PROFILE_VP9_3 LEVEL_AVC_1)))).
  vm_compute; reflexivity.
Defined.

(** ** The intra-refresh setter, applied again *)

Lemma SFltb_zero_one (x : F32.float) :
  F32.ltb x (F32.of_Z 1) = false -> F32.ltb x (F32.of_Z 0) = false.
Proof.
  change (F32.of_Z 1) with (S754_finite false 8388608 (-23)).
  change (F32.of_Z 0) with (S754_zero false).
  unfold F32.ltb, SFltb. intros H.
  destruct x as [s | s | | s m e]; [reflexivity | | reflexivity |];
    destruct s; first [reflexivity | discriminate H].
Qed.

(** X13: what the intra-refresh setter leaves is a fixed point of the
    setter, so applying it again changes nothing.  The mode it leaves is one
    of the two modes the parameter allows, it is the disabled mode exactly
    when the requested period was below 1, and the period it leaves is never
    below 0. *)
Theorem IntraRefreshPeriodSetter_fixed_point (requested : IntraRefresh) :
  let out := snd (IntraRefreshPeriodSetter requested) in
  IntraRefreshPeriodSetter out = (Ok, out)
  /\ (ir_mode out = INTRA_REFRESH_DISABLED \/ ir_mode out = INTRA_REFRESH_ARBITRARY)
  /\ (ir_mode out = INTRA_REFRESH_DISABLED
      <-> F32.ltb (ir_period requested) (F32.of_Z 1) = true)
  /\ F32.ltb (ir_period out) (F32.of_Z 0) = false.
Proof.
  cbn zeta.
  assert (E : snd (IntraRefreshPeriodSetter requested)
              = if F32.ltb (ir_period requested) (F32.of_Z 1)
                then mkIntraRefresh INTRA_REFRESH_DISABLED (F32.of_Z 0)
                else mkIntraRefresh INTRA_REFRESH_ARBITRARY (ir_period requested)).
  { unfold IntraRefreshPeriodSetter.
    destruct (F32.ltb (ir_period requested) (F32.of_Z 1)); reflexivity. }
  rewrite E. clear E.
  destruct (F32.ltb (ir_period requested) (F32.of_Z 1)) eqn:Hlt; cbn [ir_mode ir_period].
  - split; [reflexivity |]. split; [now left |]. split; [tauto | reflexivity].
  - split; [unfold IntraRefreshPeriodSetter; cbn [ir_period]; rewrite Hlt; reflexivity |].
    split; [now right |].
    split; [split; discriminate |].
    exact (SFltb_zero_one _ Hlt).
Qed.

(** ** The key-frame period, edge cases *)

(** X14: [getKeyFramePeriod] answers 0, meaning no periodic key frames, only
    for a negative period or INT64_MAX; every other answer lies between 1 and
    UINT32_MAX, however short the period or low the frame rate. *)
Theorem getKeyFramePeriod_zero_iff_disabled
    (periodUs : Z) (frameRate : F32.float) (k : Z) :
  getKeyFramePeriod periodUs frameRate = Some k ->
  0 <= k <= UINT32_MAX
  /\ (k = 0 <-> periodUs < 0 \/ periodUs = INT64_MAX)
  /\ (k <> 0 -> 1 <= k).
Proof.
  unfold getKeyFramePeriod.
  destruct (Z.ltb_spec periodUs 0) as [Hneg | Hpos]; cbn [orb].
  - intros [= <-]. split; [unfold UINT32_MAX; lia |].
    split; [split; [intros _; now left | reflexivity] | intros H; now elim H].
  - destruct (Z.eqb_spec periodUs INT64_MAX) as [Hmax | Hne].
    + intros [= <-]. split; [unfold UINT32_MAX; lia |].
      split; [split; [intros _; now right | reflexivity] | intros H; now elim H].
    + assert (Hk : forall r, to_uint32 (std_max (std_min r (IInt UINT32_MAX)) (IInt 1))
                             = Some k -> 1 <= k <= UINT32_MAX).
      { intros [| [|] | z].
        - discriminate.
        - intros [= <-]. unfold UINT32_MAX. lia.
        - intros [= <-]. unfold UINT32_MAX. lia.
        - rewrite clamp_integer. intros [= <-]. unfold UINT32_MAX. lia. }
      intros H. apply Hk in H. split; [lia |].
      split; [split; [intros ->; lia | intros [? | ?]; [lia | contradiction]] | lia].
Qed.

Lemma getKeyFramePeriod_zero_iff_disabled_witness :
  0 <= 1 <= UINT32_MAX
  /\ (1 = 0 <-> 33333 < 0 \/ 33333 = INT64_MAX)
  /\ (1 <> 0 -> 1 <= 1).
Proof.
  apply (getKeyFramePeriod_zero_iff_disabled 33333 (F32.of_Z 30) 1).
  vm_compute; reflexivity.
Defined.

(** X15: a period of zero microseconds gives one frame per key frame at
    every frame rate for which the product is a number. *)
Theorem getKeyFramePeriod_zero_period (frameRate : F32.float) :
  SFis_nan (keyFramePeriodFrames 0 frameRate) = false ->
  getKeyFramePeriod 0 frameRate = Some 1.
Proof.
  unfold getKeyFramePeriod, keyFramePeriodFrames.
  change ((0 <? 0) || (0 =? INT64_MAX)) with false. cbv iota.
  change (F64.div (F64.of_Z 0) (F64.of_Z 1000000)) with (S754_zero false).
  unfold F64.mul, SFmul.
  destruct (F64.of_float frameRate) as [s | s | | s m e]; cbn [SFis_nan];
    try discriminate; intros _; reflexivity.
Qed.

Lemma getKeyFramePeriod_zero_period_witness :
  getKeyFramePeriod 0 (F32.of_Z 60) = Some 1.
Proof.
  apply (getKeyFramePeriod_zero_period (F32.of_Z 60)).
  vm_compute; reflexivity.
Defined.

(** ** Two requests in a row *)

(** X16: a level that had to be raised comes back once the configuration
    allows it.  Start with nothing remembered and propose a supported level;
    if the setter accepts but replaces that level, then a second call on the
    value it left, at a size, frame rate and bitrate that the row of the
    originally proposed level covers, accepts and puts the originally
    proposed level back. *)
Theorem raised_level_comes_back
    (sup : FieldSupport) (p : profile_t) (proposed : level_t)
    (size1 size2 : PictureSize) (rate1 rate2 : F32.float) (bitrate1 bitrate2 : Z)
    (row : LevelLimits) :
  let out1 := H264ProfileLevelSetter sup LEVEL_UNUSED (mkProfileLevel p proposed)
                size1 rate1 bitrate1 in
  let out2 := H264ProfileLevelSetter sup (lowest_out out1) (info_out out1)
                size2 rate2 bitrate2 in
  supportsAtAll (profiles sup) p = true ->
  PROFILE_AVC_BASELINE <= p ->
  proposed <> LEVEL_UNUSED ->
  supportsAtAll (levels sup) proposed = true ->
  result out1 = Ok ->
  level (info_out out1) <> proposed ->
  In row kLimits ->
  ll_level row = proposed ->
  meets p (targetFS size2) (targetMBPS size2 rate2) bitrate2 row = true ->
  out2 = mkOut Ok (mkProfileLevel p proposed) proposed.
Proof.
  cbn zeta. intros Hps Hge Hset Hsl.
  rewrite (H264ProfileLevelSetter_unfold sup LEVEL_UNUSED).
  rewrite (adoptProfile_keeps sup PROFILE_AVC_BASELINE (mkProfileLevel p proposed) Hps Hge).
  cbn zeta. cbn [profile level].
  change (effectiveLevel LEVEL_UNUSED proposed) with proposed.
  destruct (firstFeasible sup p (targetFS size1) (targetMBPS size1 rate1) bitrate1 kLimits)
    as [r1 |] eqn:Hf1; [| cbn [result]; discriminate].
  rewrite Hsl. cbn [negb orb].
  destruct (stale sup p (targetFS size1) (targetMBPS size1 rate1) bitrate1 proposed kLimits)
    eqn:Hst; cbn [result info_out lowest_out level];
    [| intros _ Hne; now elim Hne].
  intros _ _ Hin Hrow Hm.
  pose proof (stale_lt sup p _ _ _ proposed kLimits r1 kLimits_StronglySorted Hf1 Hst)
    as Hlt.
  exact (restore_remembered sup proposed (mkProfileLevel p (ll_level r1))
           size2 rate2 bitrate2 row Hps Hge Hset Hlt Hsl Hin Hrow Hm).
Qed.

Lemma raised_level_comes_back_witness :
  let out1 := H264ProfileLevelSetter scenario1_support LEVEL_UNUSED
                (mkProfileLevel PROFILE_AVC_BASELINE LEVEL_AVC_1)
                (mkPictureSize 320 240) (F32.of_Z 30) 64000 in
  H264ProfileLevelSetter scenario1_support (lowest_out out1) (info_out out1)
    (mkPictureSize 176 144) (F32.of_Z 15) 64000
  = mkOut Ok (mkProfileLevel PROFILE_AVC_BASELINE LEVEL_AVC_1) LEVEL_AVC_1.
Proof.
  cbn zeta.
  apply (raised_level_comes_back scenario1_support PROFILE_AVC_BASELINE LEVEL_AVC_1
           (mkPictureSize 320 240) (mkPictureSize 176 144) (F32.of_Z 30) (F32.of_Z 15)
           64000 64000 (limits LEVEL_AVC_1 1485 99 64000)).
  - vm_compute; reflexivity.
  - vm_compute; discriminate.
  - vm_compute; discriminate.
  - vm_compute; reflexivity.
  - vm_compute; reflexivity.
  - vm_compute; discriminate.
  - vm_compute; tauto.
  - reflexivity.
  - vm_compute; reflexivity.
Defined.
